(** * range_libc / pywrapper / setup.py

    A shallow embedding of the build script [pywrapper/setup.py]: the
    environment flag reader [check_for_flag], the CUDA toolkit locator
    [find_in_path] / [locate_cuda], the module-level assembly of the
    compiler flag lists, and the per-file compiler switch [_compile]
    that [custom_build_ext] installs on the distutils compiler object.

    Python strings are modelled as [string] (the bytes of their UTF-8
    encoding), [os.environ] as a finite map from names to values, the
    file system as the two predicates the script asks of it
    ([os.path.isdir], [os.path.exists]), printed lines as a list, and
    raised exceptions as the [Raise] branch of a result type. *)

From Stdlib Require Import ZArith Ascii String List Bool Lia.
From stdpp Require Import base option gmap strings list.

Local Open Scope string_scope.
Local Open Scope list_scope.

(** ** Python [str] helpers *)

Module PyStr.

(** [c.lower()] for one character; only ASCII capitals change.  No
    other code point lowers to an ASCII letter, so comparing a
    lowered string with an ASCII literal is decided by this map. *)
Definition lower_ascii (a : ascii) : ascii :=
  let n := nat_of_ascii a in
  if (65 <=? n)%nat && (n <=? 90)%nat then ascii_of_nat (n + 32) else a.

Fixpoint lower (s : string) : string :=
  match s with
  | EmptyString => EmptyString
  | String a r => String (lower_ascii a) (lower r)
  end.

(** [s.split(sep)] for a one-character separator: never empty, the
    empty string splits to one empty field. *)
Fixpoint split (sep : ascii) (s : string) : list string :=
  match s with
  | EmptyString => [EmptyString]
  | String a r =>
      if Ascii.eqb a sep then EmptyString :: split sep r
      else match split sep r with
           | h :: t => String a h :: t
           | [] => [String a EmptyString]
           end
  end.

Fixpoint rfind_from (c : ascii) (i : Z) (s : string) (acc : Z) : Z :=
  match s with
  | EmptyString => acc
  | String a r => rfind_from c (i + 1) r (if Ascii.eqb a c then i else acc)
  end.

(** [s.rfind(c)]: the last index of [c], or -1. *)
Definition rfind (c : ascii) (s : string) : Z := rfind_from c 0 s (-1).

(** [s[:i]] and [s[i:]] for [0 <= i]. *)
Definition take (i : nat) (s : string) : string := substring 0 i s.
Definition drop (i : nat) (s : string) : string :=
  substring i (String.length s - i) s.

Definition startswith (pre s : string) : bool := String.prefix pre s.

Fixpoint endswith_char (c : ascii) (s : string) : bool :=
  match s with
  | EmptyString => false
  | String a EmptyString => Ascii.eqb a c
  | String _ r => endswith_char c r
  end.

(** [s.rstrip(c)] *)
Fixpoint rstrip (c : ascii) (s : string) : string :=
  match s with
  | EmptyString => EmptyString
  | String a r =>
      match rstrip c r with
      | EmptyString => if Ascii.eqb a c then EmptyString else String a EmptyString
      | r' => String a r'
      end
  end.

Fixpoint all_char (c : ascii) (s : string) : bool :=
  match s with
  | EmptyString => true
  | String a r => Ascii.eqb a c && all_char c r
  end.

(** [sep.join(l)] *)
Fixpoint join (sep : string) (l : list string) : string :=
  match l with
  | [] => EmptyString
  | [x] => x
  | x :: r => x +:+ sep +:+ join sep r
  end.

End PyStr.

(** ** [os.path] on POSIX (posixpath / genericpath) *)

Module OsPath.
Import PyStr.

Definition sep : ascii := "/"%char.
Definition extsep : ascii := "."%char.
Definition pathsep : ascii := ":"%char.

(** One round of the loop of [posixpath.join]. *)
Definition join_step (path b : string) : string :=
  if startswith "/" b then b
  else if String.eqb path "" || endswith_char sep path then path +:+ b
  else path +:+ "/" +:+ b.

(** [os.path.join(a, *p)] *)
Definition pjoin (a : string) (p : list string) : string :=
  fold_left join_step p a.

(** The scan of [genericpath._splitext] over the characters between
    the last separator and the last dot: [true] as soon as one of
    them is not a dot. *)
Fixpoint has_non_dot (p : string) (i : nat) (k : nat) : bool :=
  match k with
  | O => false
  | S k' =>
      match String.get i p with
      | Some a => if Ascii.eqb a extsep then has_non_dot p (S i) k' else true
      | None => true
      end
  end.

(** [os.path.splitext(p)] *)
Definition splitext (p : string) : string * string :=
  let sepIndex := rfind sep p in
  let dotIndex := rfind extsep p in
  if (sepIndex <? dotIndex)%Z then
    let filenameIndex := Z.to_nat (sepIndex + 1) in
    if has_non_dot p filenameIndex (Z.to_nat dotIndex - filenameIndex)
    then (take (Z.to_nat dotIndex) p, drop (Z.to_nat dotIndex) p)
    else (p, EmptyString)
  else (p, EmptyString).

(** [os.path.dirname(p)] *)
Definition dirname (p : string) : string :=
  let i := Z.to_nat (rfind sep p + 1) in
  let head := take i p in
  if negb (String.eqb head "") && negb (all_char sep head)
  then rstrip sep head else head.

Definition isabs (p : string) : bool := startswith "/" p.

(** The component loop of [posixpath.normpath]; [new_comps] is kept
    reversed, its head is the last component appended. *)
Fixpoint norm_comps (initial_slashes : nat) (comps : list string)
         (new_comps : list string) : list string :=
  match comps with
  | [] => rev new_comps
  | comp :: rest =>
      if String.eqb comp "" || String.eqb comp "." then
        norm_comps initial_slashes rest new_comps
      else if negb (String.eqb comp "..")
              || ((initial_slashes =? 0)%nat && match new_comps with [] => true | _ => false end)
              || match new_comps with last :: _ => String.eqb last ".." | [] => false end
      then norm_comps initial_slashes rest (comp :: new_comps)
      else match new_comps with
           | _ :: popped => norm_comps initial_slashes rest popped
           | [] => norm_comps initial_slashes rest new_comps
           end
  end.

(** [os.path.normpath(path)] *)
Definition normpath (path : string) : string :=
  if String.eqb path "" then "." else
  let initial_slashes :=
    if startswith "/" path then
      if startswith "//" path && negb (startswith "///" path) then 2%nat else 1%nat
    else 0%nat in
  let comps := norm_comps initial_slashes (split sep path) [] in
  let body := join "/" comps in
  let res := match initial_slashes with
             | O => body
             | 1%nat => "/" +:+ body
             | _ => "//" +:+ body
             end in
  if String.eqb res "" then "." else res.

(** [os.path.abspath(path)], with the working directory explicit. *)
Definition abspath (cwd path : string) : string :=
  normpath (if isabs path then path else pjoin cwd [path]).

End OsPath.

(** ** Exceptions, results and the world the script runs in *)

Inductive exn : Type :=
| EnvironmentError (msg : string)   (* raised by [locate_cuda] *)
| KeyError (key : string)           (* [os.environ[key]] on an unset name *)
| CompileError (msg : string)       (* raised by the distutils compile step *)
| NameError (name : string).        (* a global name read before it is bound *)

Inductive result (A : Type) : Type :=
| Ok (a : A)
| Raise (e : exn).
Arguments Ok {A} a.
Arguments Raise {A} e.

Definition is_ok {A} (r : result A) : bool :=
  match r with Ok _ => true | Raise _ => false end.

(** What the script reads from outside: the process environment, the
    two file-system tests, the working directory and the platform. *)
Record World : Type := mkWorld {
  environ : gmap string string;
  isdir : string -> bool;          (* os.path.isdir *)
  path_exists : string -> bool;    (* os.path.exists *)
  getcwd : string;                 (* os.getcwd() *)
  platform_system : string;        (* platform.system() *)
  mac_ver : string                 (* platform.mac_ver()[0] *)
}.

Definition with_environ (w : World) (e : gmap string string) : World :=
  mkWorld e (isdir w) (path_exists w) (getcwd w) (platform_system w) (mac_ver w).

(** [os.environ[key]] *)
Definition environ_get (w : World) (key : string) : result string :=
  match environ w !! key with
  | Some v => Ok v
  | None => Raise (KeyError key)
  end.

(** What a [print] call wrote: a string, or a label followed by the
    repr of a configuration dictionary. *)
Inductive printed : Type :=
| OutStr (s : string)
| OutDict (label : string) (d : list (string * string)).

(** ** [check_for_flag] *)

(** The message arguments are strings, or the value [False] that
    silences the message. *)
Inductive msg : Type :=
| MsgStr (s : string)
| MsgFalse.

(** [m == False] *)
Definition msg_is_False (m : msg) : bool :=
  match m with MsgFalse => true | MsgStr _ => false end.

(** What [print(m)] writes. *)
Definition msg_text (m : msg) : string :=
  match m with MsgStr s => s | MsgFalse => "False" end.

(** Returns the flag together with the lines printed. *)
Definition check_for_flag (w : World) (flag_str : string)
           (truemsg falsemsg : msg) : bool * list printed :=
  let enabled :=
    match environ w !! flag_str with
    | Some v => String.eqb (PyStr.lower v) "on"
    | None => false
    end in
  if enabled && negb (msg_is_False truemsg) then
    (enabled, [OutStr (msg_text truemsg)])
  else if negb enabled && negb (msg_is_False falsemsg) then
    (enabled, [OutStr (msg_text falsemsg);
               OutStr ("   $ sudo " +:+ flag_str +:+ "=ON python setup.py install")])
  else (enabled, []).

(** ** Toolkit location *)

(** The loop of [find_in_path] over the directories of the search path. *)
Fixpoint find_in_dirs (w : World) (name : string) (dirs : list string)
  : option string :=
  match dirs with
  | [] => None
  | dir :: rest =>
      let binpath := OsPath.pjoin dir [name] in
      if path_exists w binpath then Some (OsPath.abspath (getcwd w) binpath)
      else find_in_dirs w name rest
  end.

Definition find_in_path (w : World) (name path : string) : option string :=
  find_in_dirs w name (PyStr.split OsPath.pathsep path).

(** The dictionary [cudaconfig]; its four keys are fixed, [items]
    lists them in insertion order. *)
Record cudaconfig : Type := mkCuda {
  home : string;
  nvcc : string;
  include : string;
  lib64 : string
}.

Definition make_cudaconfig (home nvcc : string) : cudaconfig :=
  mkCuda home nvcc (OsPath.pjoin home ["include"]) (OsPath.pjoin home ["lib64"]).

Definition items (c : cudaconfig) : list (string * string) :=
  [("home", home c); ("nvcc", nvcc c); ("include", include c); ("lib64", lib64 c)].

Definition cuda_10_2 : string := "/usr/local/cuda-10.2".
Definition cuda_default : string := "/usr/local/cuda".
Definition not_found_msg : string :=
  "nvcc binary not found. Set $CUDAHOME or add nvcc to $PATH.".

(** Lines 50-63: the [if]/[elif] chain choosing [(home, nvcc)]. *)
Definition choose_root (w : World) : result (string * string) :=
  if isdir w cuda_10_2 then
    Ok (cuda_10_2, OsPath.pjoin cuda_10_2 ["bin"; "nvcc"])
  else if isdir w cuda_default then
    Ok (cuda_default, OsPath.pjoin cuda_default ["bin"; "nvcc"])
  else match environ w !! "CUDAHOME" with
  | Some h => Ok (h, OsPath.pjoin h ["bin"; "nvcc"])
  | None =>
      match environ_get w "PATH" with
      | Raise e => Raise e
      | Ok path =>
          match find_in_path w "nvcc" path with
          | None => Raise (EnvironmentError not_found_msg)
          | Some n => Ok (OsPath.dirname (OsPath.dirname n), n)
          end
      end
  end.

Definition invalid_msg (k v : string) : string :=
  "The CUDA " +:+ k +:+ " path could not be located in " +:+ v.

(** Lines 66-68: the loop over [cudaconfig.items()]. *)
Fixpoint check_items (w : World) (kvs : list (string * string)) : result unit :=
  match kvs with
  | [] => Ok tt
  | (k, v) :: rest =>
      if negb (path_exists w v) then Raise (EnvironmentError (invalid_msg k v))
      else check_items w rest
  end.

(** Returns the configuration together with what was printed. *)
Definition locate_cuda (w : World) : result (cudaconfig * list printed) :=
  match choose_root w with
  | Raise e => Raise e
  | Ok (home, nvcc) =>
      let cudaconfig := make_cudaconfig home nvcc in
      match check_items w (items cudaconfig) with
      | Raise e => Raise e
      | Ok _ => Ok (cudaconfig, [OutDict "CUDA config: " (items cudaconfig)])
      end
  end.

(** [result] is the error monad the script's control flow runs in. *)
#[export] Instance result_ret : MRet result := fun _ a => Ok a.
#[export] Instance result_bind : MBind result := fun _ _ f r =>
  match r with
  | Ok a => f a
  | Raise e => Raise e
  end.

(** ** The module body: flag lists, sources and the extension *)

Record Extension : Type := mkExtension {
  ext_name : string;
  ext_sources : list string;
  extra_compile_args : list string;
  extra_link_args : list string;
  ext_include_dirs : list string;
  library_dirs : list string;
  libraries : list string;
  runtime_library_dirs : list string;
  ext_depends : list string;
  language : string
}.

(** The command class handed to [setup]. *)
Inductive cmdclass : Type :=
| build_ext               (* setuptools' own *)
| custom_build_ext.       (* the subclass that installs [_compile] *)

(** The module's global names once the body has run, with the
    arguments of the [setup] call. *)
Record Globals : Type := mkGlobals {
  compiler_flags : list string;
  nvcc_flags : list string;
  include_dirs : list string;
  depends : list string;
  sources : list string;
  CUDA : option cudaconfig;       (* bound only under [use_cuda] *)
  ext_modules : list Extension;
  setup_cmdclass : cmdclass
}.

Definition CHUNK_SIZE : string := "262144".
Definition NUM_THREADS : string := "256".

(** Lines 73-90 and the arguments built for [setup] at lines 117-154,
    for given values of [use_cuda] and [trace]; [numpy_include] is
    what [numpy.get_include()] returned.
    The second component collects what the body printed. *)
Definition module_body (numpy_include : string) (use_cuda trace : bool)
           (w : World) : result (Globals * list printed) :=
  let compiler_flags := ["-w"; "-std=c++11"; "-O3"] in
  let nvcc_flags := ["-arch=sm_86"; "--ptxas-options=-v"; "-c";
                     "--compiler-options"; "'-fPIC'"; "-w"; "-std=c++11"; "-O3"] in
  let include_dirs := ["../"; numpy_include] in
  let depends := ["../includes/*.h"] in
  let sources := ["RangeLibc.pyx"; "../vendor/lodepng/lodepng.cpp"] in
  '(compiler_flags, nvcc_flags, include_dirs, sources, CUDA, out) ←
    (if use_cuda then
       let compiler_flags := compiler_flags ++
         ["-DUSE_CUDA=1"; "-DCHUNK_SIZE=" +:+ CHUNK_SIZE; "-DNUM_THREADS=" +:+ NUM_THREADS] in
       let nvcc_flags := nvcc_flags ++
         ["-DUSE_CUDA=1"; "-DCHUNK_SIZE=" +:+ CHUNK_SIZE; "-DNUM_THREADS=" +:+ NUM_THREADS] in
       '(CUDA, out) ← locate_cuda w;
       let include_dirs := include_dirs ++ [include CUDA] in
       let sources := sources ++ ["../includes/kernels.cu"] in
       Ok (compiler_flags, nvcc_flags, include_dirs, sources, Some CUDA, out)
     else Ok (compiler_flags, nvcc_flags, include_dirs, sources, None, []));
  let compiler_flags :=
    if trace then compiler_flags ++ ["-D_MAKE_TRACE_MAP=1"] else compiler_flags in
  match CUDA with
  | Some cuda =>
      let ext := mkExtension "range_libc" sources compiler_flags ["-std=c++11"]
                   include_dirs [lib64 cuda; "/usr/lib/x86_64-linux-gnu"]
                   ["cudart"] [lib64 cuda] depends "c++" in
      Ok (mkGlobals compiler_flags nvcc_flags include_dirs depends sources
                    CUDA [ext] custom_build_ext, out)
  | None =>
      let ext := mkExtension "range_libc" sources compiler_flags ["-std=c++11"]
                   include_dirs [] [] [] depends "c++" in
      Ok (mkGlobals compiler_flags nvcc_flags include_dirs depends sources
                    CUDA [ext] build_ext, out)
  end.

Definition newline : string := String (ascii_of_nat 10) EmptyString.

(** Lines 36-38: on macOS two variables are written to the environment
    before anything else reads it. *)
Definition darwin_env (w : World) : World :=
  if String.eqb (PyStr.lower (platform_system w)) "darwin" then
    with_environ w (<["CC" := "c++"]>
                      (<["MACOSX_DEPLOYMENT_TARGET" := mac_ver w]> (environ w)))
  else w.

(** The script from the flag reports up to the call of [setup], once
    numpy has been imported and has given [numpy_include]: what it
    printed and, unless it raised before reaching [setup], the globals
    and the arguments that [setup] is then called with.  The import of
    numpy (lines 4-10) and the run of [setup] itself, which drives
    setuptools and the compilers, are not part of it. *)
Definition setup_py (numpy_include : string) (w : World)
  : list printed * result Globals :=
  let '(use_cuda, out1) :=
    check_for_flag w "WITH_CUDA" (MsgStr "Compiling with CUDA support")
      (MsgStr "Compiling without CUDA support. To enable CUDA use:") in
  let '(trace, out2) :=
    check_for_flag w "TRACE"
      (MsgStr "Compiling with trace enabled for Bresenham's Line")
      (MsgStr "Compiling without trace enabled for Bresenham's Line") in
  let out3 := [OutStr (newline +:+ "--------------" +:+ newline)] in
  match module_body numpy_include use_cuda trace (darwin_env w) with
  | Ok (g, out4) => (out1 ++ out2 ++ out3 ++ out4, Ok g)
  | Raise e => (out1 ++ out2 ++ out3, Raise e)
  end.

(** ** The compiler object and the per-file switch *)

(** The attributes of the distutils compiler object that the script
    reads or writes. *)
Record CCompiler : Type := mkCCompiler {
  src_extensions : list string;
  compiler_so : list string
}.

(** One invocation of the underlying compile step: the executable
    that was active when it ran, and its arguments. *)
Record Call : Type := mkCall {
  call_compiler_so : list string;
  call_obj : string;
  call_src : string;
  call_ext : string;
  call_cc_args : list string;
  call_postargs : list string;
  call_pp_opts : list string
}.

(** The compiler object is shared, mutable state; [spawned] records
    the compile steps run so far, oldest first. *)
Record BuildState : Type := mkBuildState {
  compiler : CCompiler;
  spawned : list Call
}.

(** Actions on the build state that may raise; a raise keeps the
    state as it was left. *)
Definition M (A : Type) : Type := BuildState -> result A * BuildState.

#[export] Instance M_ret : MRet M := fun _ a st => (Ok a, st).
#[export] Instance M_bind : MBind M := fun _ _ f m st =>
  match m st with
  | (Ok a, st') => f a st'
  | (Raise e, st') => (Raise e, st')
  end.

Definition is_cu (src : string) : bool :=
  String.eqb (snd (OsPath.splitext src)) ".cu".

Section Dispatcher.

(** [distutils.util.split_quoted], which [set_executable] applies to
    a string value. *)
Variable split_quoted : string -> list string.
(** The verdict of the external compiler on one invocation: [None]
    when it succeeds, the message of the [CompileError] otherwise. *)
Variable run_compiler : Call -> option string.
(** The module's globals, read by [_compile] when it runs. *)
Variable g : Globals.

(** [self.compiler.compiler_so = v] *)
Definition set_compiler_so (v : list string) : M unit := fun st =>
  (Ok tt, mkBuildState (mkCCompiler (src_extensions (compiler st)) v) (spawned st)).

(** [self.compiler.set_executable(key, value)] for a string value;
    only the attribute [compiler_so] is part of the state. *)
Definition set_executable (key value : string) : M unit :=
  if String.eqb key "compiler_so" then set_compiler_so (split_quoted value)
  else mret tt.

(** Reading the global [CUDA]. *)
Definition global_CUDA : M cudaconfig := fun st =>
  match CUDA g with
  | Some c => (Ok c, st)
  | None => (Raise (NameError "CUDA"), st)
  end.

(** The compiler's original [_compile]: it runs the executable that
    is active at the call and raises [CompileError] when that fails;
    it does not write to the compiler object. *)
Definition super_compile (obj src ext : string)
           (cc_args extra_postargs pp_opts : list string) : M unit := fun st =>
  let call := mkCall (compiler_so (compiler st)) obj src ext
                     cc_args extra_postargs pp_opts in
  let st' := mkBuildState (compiler st) (spawned st ++ [call]) in
  match run_compiler call with
  | None => (Ok tt, st')
  | Some m => (Raise (CompileError m), st')
  end.

(** Lines 103-112, with the captured [default_compiler_so]. *)
Definition _compile (default_compiler_so : list string) (obj src ext : string)
           (cc_args extra_postargs pp_opts : list string) : M unit :=
  let ext_type := snd (OsPath.splitext src) in
  postargs ← (if String.eqb ext_type ".cu" then
                cuda ← global_CUDA;
                set_executable "compiler_so" (nvcc cuda);;
                mret (nvcc_flags g)
              else
                set_compiler_so default_compiler_so;;
                mret (compiler_flags g));
  super_compile obj src ext cc_args postargs pp_opts;;
  set_compiler_so default_compiler_so.

(** Lines 98-114: registers the [.cu] extension and captures the
    executable that is active then; the result is the state and the
    captured value the installed [_compile] closes over. *)
Definition _customize_compiler_for_nvcc (st : BuildState)
  : BuildState * list string :=
  (mkBuildState
     (mkCCompiler (src_extensions (compiler st) ++ [".cu"])
                  (compiler_so (compiler st)))
     (spawned st),
   compiler_so (compiler st)).

(** One source handed to the compile step: object, source, extension. *)
Definition compile_unit : Type := string * string * string.

(** The caller of the installed [_compile]: the loop of
    [CCompiler.compile] in distutils, one call per source in list
    order, stopping at the first that raises. *)
Fixpoint compile_units (default_compiler_so : list string)
         (cc_args extra_postargs pp_opts : list string)
         (units : list compile_unit) : M unit :=
  match units with
  | [] => mret tt
  | (obj, src, ext) :: rest =>
      _compile default_compiler_so obj src ext cc_args extra_postargs pp_opts;;
      compile_units default_compiler_so cc_args extra_postargs pp_opts rest
  end.

End Dispatcher.

(** ** Sample worlds

    Small file systems given by their directories and plain files,
    used to run the definitions on concrete inputs. *)

Definition mem (p : string) (l : list string) : bool :=
  existsb (String.eqb p) l.

Definition fs_world (env : gmap string string) (dirs files : list string) : World :=
  mkWorld env (fun p => mem p dirs) (fun p => mem p (dirs ++ files))
          "/home/build" "Linux" "".

(** No variable set, no toolkit anywhere. *)
Definition world_bare : World := fs_world ∅ [] [].

(** A toolkit under /opt/cuda, reachable through PATH only. *)
Definition world_on_path : World :=
  fs_world (<["PATH" := "/usr/bin:/opt/cuda/bin:/bin"]> ∅)
           ["/usr/bin"; "/bin"; "/opt/cuda"; "/opt/cuda/bin";
            "/opt/cuda/include"; "/opt/cuda/lib64"]
           ["/opt/cuda/bin/nvcc"].

(** CUDAHOME names a directory that is not there, while PATH would
    lead to an installed toolkit. *)
Definition world_stale_cudahome : World :=
  fs_world (<["CUDAHOME" := "/opt/gone"]> (<["PATH" := "/opt/cuda/bin"]> ∅))
           ["/opt/cuda"; "/opt/cuda/bin"; "/opt/cuda/include"; "/opt/cuda/lib64"]
           ["/opt/cuda/bin/nvcc"].

(** The unversioned default installation without its include directory. *)
Definition world_no_include : World :=
  fs_world ∅
           ["/usr/local/cuda"; "/usr/local/cuda/bin"; "/usr/local/cuda/lib64"]
           ["/usr/local/cuda/bin/nvcc"].

(** The version-pinned default installation, complete. *)
Definition world_pinned : World :=
  fs_world ∅
           ["/usr/local/cuda-10.2"; "/usr/local/cuda-10.2/bin";
            "/usr/local/cuda-10.2/include"; "/usr/local/cuda-10.2/lib64"]
           ["/usr/local/cuda-10.2/bin/nvcc"].

(** [split_quoted] on a path without blanks, quotes or backslashes:
    the path as the only word. *)
Definition one_word (s : string) : list string := [s].

(** The globals left by a GPU build on the pinned installation. *)
Definition sample_globals : Globals :=
  match module_body "numpy/include" true false world_pinned with
  | Ok (g, _) => g
  | Raise _ => mkGlobals [] [] [] [] [] None [] build_ext
  end.

(** A compiler object as distutils sets it up for gcc. *)
Definition sample_state : BuildState :=
  mkBuildState (mkCCompiler [".c"; ".cpp"] ["gcc"; "-fPIC"]) [].

(** ** Vocabulary of the statements *)

(** The define that the trace flag adds. *)
Definition trace_define : string := "-D_MAKE_TRACE_MAP=1".

(** The message mentions the variable CUDAHOME. *)
Definition names_cudahome (m : string) : Prop :=
  exists pre post, m = pre +:+ "CUDAHOME" +:+ post.

(** The state with [so] as active executable and [calls] added to the
    record of compile steps. *)
Definition with_so (st : BuildState) (so : list string) (calls : list Call)
  : BuildState :=
  mkBuildState (mkCCompiler (src_extensions (compiler st)) so)
               (spawned st ++ calls).

(** A recorded compile step that, if it is for a host source, ran the
    default executable with the host flags. *)
Definition host_step_ok (g : Globals) (default_compiler_so : list string)
           (c : Call) : Prop :=
  is_cu (call_src c) = false ->
  call_compiler_so c = default_compiler_so /\
  call_postargs c = compiler_flags g.

(** ** Further vocabulary *)

(** The four paths of the configuration under each default directory. *)
Definition pinned_paths : list string :=
  [cuda_10_2; "/usr/local/cuda-10.2/bin/nvcc";
   "/usr/local/cuda-10.2/include"; "/usr/local/cuda-10.2/lib64"].

Definition default_paths : list string :=
  [cuda_default; "/usr/local/cuda/bin/nvcc";
   "/usr/local/cuda/include"; "/usr/local/cuda/lib64"].

(** A pinned directory without its files, next to a complete toolkit
    that CUDAHOME and PATH point to. *)
Definition world_broken_pinned : World :=
  fs_world (<["CUDAHOME" := "/opt/cuda"]> (<["PATH" := "/opt/cuda/bin"]> ∅))
           ["/usr/local/cuda-10.2"; "/opt/cuda"; "/opt/cuda/bin";
            "/opt/cuda/include"; "/opt/cuda/lib64"]
           ["/opt/cuda/bin/nvcc"].

(** The values the script gives [use_cuda] and [trace]. *)
Definition with_cuda_on (w : World) : bool :=
  match environ w !! "WITH_CUDA" with
  | Some v => String.eqb (PyStr.lower v) "on"
  | None => false
  end.

Definition trace_on (w : World) : bool :=
  match environ w !! "TRACE" with
  | Some v => String.eqb (PyStr.lower v) "on"
  | None => false
  end.

(** What the script prints before the module body runs: the reports
    of the two flags and the separator. *)
Definition flag_reports (w : World) : list printed :=
  snd (check_for_flag w "WITH_CUDA" (MsgStr "Compiling with CUDA support")
         (MsgStr "Compiling without CUDA support. To enable CUDA use:"))
  ++ snd (check_for_flag w "TRACE"
            (MsgStr "Compiling with trace enabled for Bresenham's Line")
            (MsgStr "Compiling without trace enabled for Bresenham's Line"))
  ++ [OutStr (newline +:+ "--------------" +:+ newline)].

(** The character [c] occurs in [s]. *)
Fixpoint has_char (c : ascii) (s : string) : bool :=
  match s with
  | EmptyString => false
  | String a r => Ascii.eqb a c || has_char c r
  end.

(** A directory prefix of a path: empty, or ending with the separator. *)
Definition dir_prefix (d : string) : Prop :=
  d = "" \/ exists d', d = d' +:+ "/".

(** * Properties *)

(** ** Flag resolution *)

Lemma lower_ascii_o (a : ascii) :
  PyStr.lower_ascii a = "o"%char <-> a = "o"%char \/ a = "O"%char.
Proof.
  destruct a as [[] [] [] [] [] [] [] []]; vm_compute;
    split; intros H; try discriminate; try tauto;
    destruct H; discriminate.
Qed.

Lemma lower_ascii_n (a : ascii) :
  PyStr.lower_ascii a = "n"%char <-> a = "n"%char \/ a = "N"%char.
Proof.
  destruct a as [[] [] [] [] [] [] [] []]; vm_compute;
    split; intros H; try discriminate; try tauto;
    destruct H; discriminate.
Qed.

(** The values that lower to ["on"] are its four spellings. *)
Lemma lower_on (v : string) :
  PyStr.lower v = "on" <-> v = "on" \/ v = "On" \/ v = "oN" \/ v = "ON".
Proof.
  split.
  - destruct v as [|a [|b [|c r]]]; simpl; try discriminate.
    intros H. injection H as Ha Hb.
    apply lower_ascii_o in Ha. apply lower_ascii_n in Hb.
    destruct Ha, Hb; subst; tauto.
  - intros [-> | [-> | [-> | ->]]]; reflexivity.
Qed.

Lemma check_for_flag_fst (w : World) (flag_str : string) (truemsg falsemsg : msg) :
  fst (check_for_flag w flag_str truemsg falsemsg) =
  match environ w !! flag_str with
  | Some v => String.eqb (PyStr.lower v) "on"
  | None => false
  end.
Proof.
  unfold check_for_flag.
  destruct (environ w !! flag_str) as [v|]; simpl.
  - destruct (String.eqb (PyStr.lower v) "on"); simpl;
      destruct (msg_is_False truemsg), (msg_is_False falsemsg); reflexivity.
  - destruct (msg_is_False falsemsg); reflexivity.
Qed.

(** C2: [check_for_flag] is a total function of the environment (it
    has no failing branch); it returns [True] exactly when the named
    variable is set and its value lowered is ["on"], that is when the
    value is one of on, On, oN, ON; unset or any other value gives
    [False]. *)
Theorem check_for_flag_enabled_iff
        (w : World) (flag_str : string) (truemsg falsemsg : msg) :
  (fst (check_for_flag w flag_str truemsg falsemsg) = true <->
   exists v, environ w !! flag_str = Some v /\ PyStr.lower v = "on")
  /\ (fst (check_for_flag w flag_str truemsg falsemsg) = false <->
      environ w !! flag_str = None \/
      exists v, environ w !! flag_str = Some v /\ PyStr.lower v <> "on")
  /\ (forall v, environ w !! flag_str = Some v ->
        In v ["on"; "On"; "oN"; "ON"] ->
        fst (check_for_flag w flag_str truemsg falsemsg) = true).
Proof.
  rewrite check_for_flag_fst.
  destruct (environ w !! flag_str) as [v|] eqn:E.
  - destruct (String.eqb_spec (PyStr.lower v) "on") as [Hl|Hl].
    + split; [|split].
      * split; [intros _; eauto | reflexivity].
      * split; [discriminate |].
        intros [H | (v' & Hv' & Hn)]; [discriminate |].
        injection Hv' as <-. contradiction.
      * reflexivity.
    + split; [|split].
      * split; [discriminate |].
        intros (v' & Hv' & Hl'). injection Hv' as <-. contradiction.
      * split; [intros _; right; eauto | reflexivity].
      * intros v' Hv' Hin. injection Hv' as <-.
        exfalso. apply Hl. apply lower_on.
        destruct Hin as [<- | [<- | [<- | [<- | []]]]]; tauto.
  - split; [|split].
    + split; [discriminate | intros (v' & Hv' & _); discriminate].
    + split; [intros _; left; reflexivity | reflexivity].
    + intros v' Hv'. discriminate.
Qed.

(** One environment exercising the enabling direction. *)
Lemma check_for_flag_enabled_witness :
  fst (check_for_flag
         (mkWorld (<["WITH_CUDA" := "On"]> ∅) (fun _ => false) (fun _ => false)
                  "/" "Linux" "")
         "WITH_CUDA" (MsgStr "yes") (MsgStr "no")) = true.
Proof.
  apply (proj2 (proj2 (check_for_flag_enabled_iff _ "WITH_CUDA" _ _)) "On").
  - reflexivity.
  - simpl. tauto.
Defined.

(** ** Toolkit location *)

Lemma find_in_dirs_none (w : World) (name : string) (dirs : list string) :
  find_in_dirs w name dirs = None <->
  (forall dir, In dir dirs -> path_exists w (OsPath.pjoin dir [name]) = false).
Proof.
  induction dirs as [|d ds IH]; cbn [find_in_dirs In].
  - split; [intros _ dir [] | intros _; reflexivity].
  - destruct (path_exists w (OsPath.pjoin d [name])) eqn:E.
    + split; [discriminate |].
      intros H. rewrite (H d) in E by (left; reflexivity). discriminate.
    + rewrite IH. split.
      * intros H dir [<- | Hin]; [exact E | apply H, Hin].
      * intros H dir Hin. apply H. right. exact Hin.
Qed.

(** The scan returns the binary of the first directory that has one. *)
Lemma find_in_dirs_first (w : World) (name : string)
      (before : list string) (dir : string) (after : list string) :
  (forall d, In d before -> path_exists w (OsPath.pjoin d [name]) = false) ->
  path_exists w (OsPath.pjoin dir [name]) = true ->
  find_in_dirs w name (before ++ dir :: after) =
  Some (OsPath.abspath (getcwd w) (OsPath.pjoin dir [name])).
Proof.
  intros Hb Hd. induction before as [|b bs IH]; cbn [find_in_dirs app].
  - rewrite Hd. reflexivity.
  - rewrite (Hb b) by (left; reflexivity).
    apply IH. intros d Hin. apply Hb. right. exact Hin.
Qed.

Lemma check_items_ok (w : World) (kvs : list (string * string)) :
  check_items w kvs = Ok tt <->
  (forall kv, In kv kvs -> path_exists w (snd kv) = true).
Proof.
  induction kvs as [|[k v] rest IH]; simpl.
  - split; [intros _ kv [] | intros _; reflexivity].
  - destruct (path_exists w v) eqn:E; simpl.
    + rewrite IH. split.
      * intros H kv [<- | Hin]; [exact E | apply H, Hin].
      * intros H kv Hin. apply H. right. exact Hin.
    + split; [discriminate |].
      intros H. specialize (H (k, v) (or_introl eq_refl)). simpl in H.
      rewrite H in E. discriminate.
Qed.

(** The loop raises for the first entry whose path is missing. *)
Lemma check_items_first_missing (w : World)
      (before : list (string * string)) (k v : string)
      (after : list (string * string)) :
  (forall kv, In kv before -> path_exists w (snd kv) = true) ->
  path_exists w v = false ->
  check_items w (before ++ (k, v) :: after) =
  Raise (EnvironmentError (invalid_msg k v)).
Proof.
  intros Hb Hv. induction before as [|[k' v'] bs IH]; simpl.
  - rewrite Hv. reflexivity.
  - pose proof (Hb (k', v') (or_introl eq_refl)) as Hk. simpl in Hk.
    rewrite Hk. simpl.
    apply IH. intros kv Hin. apply Hb. right. exact Hin.
Qed.

Lemma check_items_raise (w : World) (kvs : list (string * string)) (e : exn) :
  check_items w kvs = Raise e ->
  exists k v, In (k, v) kvs /\ path_exists w v = false /\
              e = EnvironmentError (invalid_msg k v).
Proof.
  induction kvs as [|[k v] rest IH]; simpl; [discriminate |].
  destruct (path_exists w v) eqn:E; simpl.
  - intros H. destruct (IH H) as (k' & v' & Hin & Hp & He).
    exists k', v'. auto.
  - intros H. injection H as <-. exists k, v. auto.
Qed.

Lemma locate_cuda_of_root (w : World) (h n : string) :
  choose_root w = Ok (h, n) ->
  locate_cuda w =
  match check_items w (items (make_cudaconfig h n)) with
  | Ok _ => Ok (make_cudaconfig h n,
                [OutDict "CUDA config: " (items (make_cudaconfig h n))])
  | Raise e => Raise e
  end.
Proof. intros H. unfold locate_cuda. rewrite H. reflexivity. Qed.

Lemma locate_cuda_ok_root (w : World) (c : cudaconfig) (out : list printed) :
  locate_cuda w = Ok (c, out) ->
  choose_root w = Ok (home c, nvcc c) /\ c = make_cudaconfig (home c) (nvcc c).
Proof.
  unfold locate_cuda.
  destruct (choose_root w) as [[h n]|e]; [|discriminate].
  destruct (check_items w (items (make_cudaconfig h n))); [|discriminate].
  intros H. injection H as <- _. simpl. auto.
Qed.

(** C4: the candidate root comes from the first of four sources that
    offers one, in the fixed order: the directory /usr/local/cuda-10.2
    when it is a directory; else /usr/local/cuda when it is one; else
    the value of CUDAHOME when set; else the first directory of PATH
    that holds nvcc, the root being the parent of the parent of that
    binary.  What later sources would offer is never looked at, and a
    returned configuration is built from that one root alone. *)
Theorem locate_cuda_strategy_order (w : World) :
  (isdir w cuda_10_2 = true ->
   choose_root w = Ok (cuda_10_2, "/usr/local/cuda-10.2/bin/nvcc"))
  /\ (isdir w cuda_10_2 = false -> isdir w cuda_default = true ->
      choose_root w = Ok (cuda_default, "/usr/local/cuda/bin/nvcc"))
  /\ (forall h, isdir w cuda_10_2 = false -> isdir w cuda_default = false ->
        environ w !! "CUDAHOME" = Some h ->
        choose_root w = Ok (h, OsPath.pjoin h ["bin"; "nvcc"]))
  /\ (forall path before dir after,
        isdir w cuda_10_2 = false -> isdir w cuda_default = false ->
        environ w !! "CUDAHOME" = None ->
        environ w !! "PATH" = Some path ->
        PyStr.split OsPath.pathsep path = before ++ dir :: after ->
        (forall d, In d before -> path_exists w (OsPath.pjoin d ["nvcc"]) = false) ->
        path_exists w (OsPath.pjoin dir ["nvcc"]) = true ->
        let n := OsPath.abspath (getcwd w) (OsPath.pjoin dir ["nvcc"]) in
        choose_root w = Ok (OsPath.dirname (OsPath.dirname n), n))
  /\ (forall c out, locate_cuda w = Ok (c, out) ->
        choose_root w = Ok (home c, nvcc c) /\
        c = make_cudaconfig (home c) (nvcc c)).
Proof.
  unfold choose_root, environ_get.
  repeat split.
  - intros ->. reflexivity.
  - intros -> ->. reflexivity.
  - intros h -> -> ->. reflexivity.
  - intros path before dir after -> -> -> -> Hs Hb Hd. simpl.
    unfold find_in_path. rewrite Hs.
    rewrite (find_in_dirs_first w "nvcc" before dir after Hb Hd). reflexivity.
  - apply (locate_cuda_ok_root w c out H).
  - apply (locate_cuda_ok_root w c out H).
Qed.

(** The PATH strategy on a toolkit found in the second directory. *)
Lemma locate_cuda_strategy_order_witness :
  choose_root world_on_path = Ok ("/opt/cuda", "/opt/cuda/bin/nvcc").
Proof.
  apply (proj1 (proj2 (proj2 (proj2 (locate_cuda_strategy_order world_on_path))))
           "/usr/bin:/opt/cuda/bin:/bin" ["/usr/bin"] "/opt/cuda/bin" ["/bin"]);
    try reflexivity.
  intros d [<- | []]. reflexivity.
Defined.

Lemma not_found_msg_names_cudahome : names_cudahome not_found_msg.
Proof.
  exists "nvcc binary not found. Set $", " or add nvcc to $PATH.". reflexivity.
Qed.

(** With PATH set, a fruitless search ends in the not-found error. *)
Lemma locate_cuda_not_found (w : World) (path : string) :
  isdir w cuda_10_2 = false -> isdir w cuda_default = false ->
  environ w !! "CUDAHOME" = None ->
  environ w !! "PATH" = Some path ->
  (forall dir, In dir (PyStr.split OsPath.pathsep path) ->
               path_exists w (OsPath.pjoin dir ["nvcc"]) = false) ->
  locate_cuda w = Raise (EnvironmentError not_found_msg).
Proof.
  intros H1 H2 H3 H4 H5.
  unfold locate_cuda, choose_root, environ_get, find_in_path.
  rewrite H1, H2, H3, H4.
  apply find_in_dirs_none in H5. rewrite H5. reflexivity.
Qed.

(** Without a candidate root no configuration is returned, whatever
    PATH is. *)
Lemma locate_cuda_no_candidate_fails (w : World) :
  isdir w cuda_10_2 = false -> isdir w cuda_default = false ->
  environ w !! "CUDAHOME" = None ->
  (forall path, environ w !! "PATH" = Some path ->
               forall dir, In dir (PyStr.split OsPath.pathsep path) ->
               path_exists w (OsPath.pjoin dir ["nvcc"]) = false) ->
  is_ok (locate_cuda w) = false.
Proof.
  intros H1 H2 H3 H5.
  destruct (environ w !! "PATH") as [path|] eqn:H4.
  - rewrite (locate_cuda_not_found w path H1 H2 H3 H4 (H5 path eq_refl)).
    reflexivity.
  - unfold locate_cuda, choose_root, environ_get.
    rewrite H1, H2, H3, H4. reflexivity.
Qed.

(** C5: in the world without default directories, without CUDAHOME
    and without PATH no strategy offers a root, and [locate_cuda]
    raises [KeyError] for PATH, not the not-found error that names
    CUDAHOME. *)
Theorem locate_cuda_path_unset :
  isdir world_bare cuda_10_2 = false
  /\ isdir world_bare cuda_default = false
  /\ environ world_bare !! "CUDAHOME" = None
  /\ (forall path dir, environ world_bare !! "PATH" = Some path ->
        In dir (PyStr.split OsPath.pathsep path) ->
        path_exists world_bare (OsPath.pjoin dir ["nvcc"]) = false)
  /\ locate_cuda world_bare = Raise (KeyError "PATH")
  /\ (forall m, locate_cuda world_bare <> Raise (EnvironmentError m)).
Proof.
  repeat split; try reflexivity.
  intros m H. vm_compute in H. discriminate.
Qed.

(** C6: once a root is chosen, the four paths home, nvcc, include and
    lib64 are tested for existence; the configuration is returned only
    when all four exist, and when one is missing [locate_cuda] raises
    the error whose message carries the key and the path of a missing
    entry (the first in that order).  A root whose home and nvcc exist
    but whose include directory does not gives the message for
    "include". *)
Theorem locate_cuda_invalid (w : World) (h n : string) :
  choose_root w = Ok (h, n) ->
  let c := make_cudaconfig h n in
  (is_ok (locate_cuda w) = true <->
   path_exists w h = true /\ path_exists w n = true /\
   path_exists w (include c) = true /\ path_exists w (lib64 c) = true)
  /\ ((exists kv, In kv (items c) /\ path_exists w (snd kv) = false) ->
      exists k v, In (k, v) (items c) /\ path_exists w v = false /\
        locate_cuda w = Raise (EnvironmentError (invalid_msg k v)))
  /\ (path_exists w h = true -> path_exists w n = true ->
      path_exists w (OsPath.pjoin h ["include"]) = false ->
      locate_cuda w =
      Raise (EnvironmentError
               ("The CUDA include path could not be located in "
                  +:+ OsPath.pjoin h ["include"]))).
Proof.
  intros Hroot c. rewrite (locate_cuda_of_root w h n Hroot). fold c.
  split; [|split].
  - destruct (check_items w (items c)) as [[]|e] eqn:E.
    + pose proof (proj1 (check_items_ok w (items c)) E) as E1.
      split; [intros _ | reflexivity].
      repeat split.
      * apply (E1 ("home", h)). simpl. tauto.
      * apply (E1 ("nvcc", n)). simpl. tauto.
      * apply (E1 ("include", include c)). simpl. tauto.
      * apply (E1 ("lib64", lib64 c)). simpl. tauto.
    + split; [discriminate |].
      intros (Hh & Hn & Hi & Hl).
      assert (check_items w (items c) = Ok tt) as E'.
      { apply (proj2 (check_items_ok w (items c))).
        intros kv [<- | [<- | [<- | [<- | []]]]]; assumption. }
      rewrite E' in E. discriminate.
  - intros (kv & Hin & Hmiss).
    destruct (check_items w (items c)) as [[]|e] eqn:E.
    + pose proof (proj1 (check_items_ok w (items c)) E kv Hin) as E1.
      rewrite E1 in Hmiss. discriminate.
    + destruct (check_items_raise w (items c) e E) as (k & v & Hk & Hv & ->).
      exists k, v. auto.
  - intros Hh Hn Hi.
    change (items c) with ([("home", h); ("nvcc", n)]
                             ++ ("include", OsPath.pjoin h ["include"])
                             :: [("lib64", OsPath.pjoin h ["lib64"])]).
    rewrite check_items_first_missing; [reflexivity | | exact Hi].
    intros kv [<- | [<- | []]]; assumption.
Qed.

(** The unversioned default installation lacking only its include
    directory. *)
Lemma locate_cuda_invalid_witness :
  locate_cuda world_no_include =
  Raise (EnvironmentError
           "The CUDA include path could not be located in /usr/local/cuda/include").
Proof.
  apply (proj2 (proj2 (locate_cuda_invalid world_no_include
                         "/usr/local/cuda" "/usr/local/cuda/bin/nvcc" eq_refl)));
    reflexivity.
Defined.

(** C10: with both default directories absent and CUDAHOME set to a
    path that does not exist, that path is taken as the root as it is;
    PATH plays no part (the outcome is the same for every value of
    PATH, set or not); and [locate_cuda] raises the invalid-path error
    for the key "home" and that path, which is not the not-found
    error. *)
Theorem locate_cuda_stale_cudahome (w : World) (h : string) :
  isdir w cuda_10_2 = false -> isdir w cuda_default = false ->
  environ w !! "CUDAHOME" = Some h ->
  path_exists w h = false ->
  choose_root w = Ok (h, OsPath.pjoin h ["bin"; "nvcc"])
  /\ locate_cuda w =
     Raise (EnvironmentError ("The CUDA home path could not be located in " +:+ h))
  /\ locate_cuda w <> Raise (EnvironmentError not_found_msg)
  /\ (forall p, locate_cuda (with_environ w (<["PATH" := p]> (environ w)))
                = locate_cuda w)
  /\ locate_cuda (with_environ w (delete "PATH" (environ w))) = locate_cuda w.
Proof.
  intros H1 H2 H3 H4.
  assert (forall w', isdir w' = isdir w -> path_exists w' = path_exists w ->
                     environ w' !! "CUDAHOME" = Some h ->
                     choose_root w' = Ok (h, OsPath.pjoin h ["bin"; "nvcc"]) /\
                     locate_cuda w' =
                     Raise (EnvironmentError (invalid_msg "home" h))) as Hgen.
  { intros w' Hd He Hc.
    assert (choose_root w' = Ok (h, OsPath.pjoin h ["bin"; "nvcc"])) as Hr.
    { unfold choose_root. rewrite Hd, H1, H2, Hc. reflexivity. }
    split; [exact Hr |].
    rewrite (locate_cuda_of_root w' h _ Hr).
    cbn [items make_cudaconfig home check_items]. rewrite He, H4. reflexivity. }
  destruct (Hgen w eq_refl eq_refl H3) as [Hr Hl].
  split; [exact Hr |]. split; [exact Hl |]. split; [|split].
  - rewrite Hl. intros H. injection H as H. simpl in H. discriminate.
  - intros p. rewrite Hl.
    apply (Hgen (with_environ w (<["PATH" := p]> (environ w))) eq_refl eq_refl).
    simpl. rewrite lookup_insert_ne by discriminate. exact H3.
  - rewrite Hl.
    apply (Hgen (with_environ w (delete "PATH" (environ w))) eq_refl eq_refl).
    simpl. rewrite lookup_delete_ne by discriminate. exact H3.
Qed.

(** CUDAHOME pointing at a missing directory while PATH leads to a
    complete toolkit. *)
Lemma locate_cuda_stale_cudahome_witness :
  locate_cuda world_stale_cudahome =
  Raise (EnvironmentError "The CUDA home path could not be located in /opt/gone").
Proof.
  apply (proj1 (proj2 (locate_cuda_stale_cudahome world_stale_cudahome "/opt/gone"
                         eq_refl eq_refl eq_refl eq_refl))).
Defined.

(** ** The module body *)

Lemma module_body_cuda_raise (np : string) (trace : bool) (w : World) (e : exn) :
  locate_cuda w = Raise e -> module_body np true trace w = Raise e.
Proof. intros H. unfold module_body. rewrite H. reflexivity. Qed.

Lemma module_body_cuda_ok (np : string) (trace : bool) (w : World)
      (c : cudaconfig) (out : list printed) :
  locate_cuda w = Ok (c, out) ->
  exists g, module_body np true trace w = Ok (g, out) /\
    compiler_flags g =
      ["-w"; "-std=c++11"; "-O3"; "-DUSE_CUDA=1"; "-DCHUNK_SIZE=262144";
       "-DNUM_THREADS=256"] ++ (if trace then [trace_define] else []) /\
    nvcc_flags g =
      ["-arch=sm_86"; "--ptxas-options=-v"; "-c"; "--compiler-options";
       "'-fPIC'"; "-w"; "-std=c++11"; "-O3"; "-DUSE_CUDA=1";
       "-DCHUNK_SIZE=262144"; "-DNUM_THREADS=256"] /\
    sources g = ["RangeLibc.pyx"; "../vendor/lodepng/lodepng.cpp";
                 "../includes/kernels.cu"] /\
    include_dirs g = ["../"; np; include c] /\
    CUDA g = Some c /\
    setup_cmdclass g = custom_build_ext /\
    exists ext, ext_modules g = [ext] /\
      ext_sources ext = sources g /\
      extra_compile_args ext = compiler_flags g /\
      ext_include_dirs ext = include_dirs g /\
      library_dirs ext = [lib64 c; "/usr/lib/x86_64-linux-gnu"] /\
      libraries ext = ["cudart"] /\
      runtime_library_dirs ext = [lib64 c].
Proof.
  intros H. unfold module_body. rewrite H.
  destruct trace; cbn; eexists; (split; [reflexivity |]); cbn;
    repeat (split; [reflexivity |]); eexists; repeat split.
Qed.

Lemma module_body_host (np : string) (trace : bool) (w : World) :
  exists g, module_body np false trace w = Ok (g, []) /\
    compiler_flags g =
      ["-w"; "-std=c++11"; "-O3"] ++ (if trace then [trace_define] else []) /\
    nvcc_flags g =
      ["-arch=sm_86"; "--ptxas-options=-v"; "-c"; "--compiler-options";
       "'-fPIC'"; "-w"; "-std=c++11"; "-O3"] /\
    sources g = ["RangeLibc.pyx"; "../vendor/lodepng/lodepng.cpp"] /\
    include_dirs g = ["../"; np] /\
    CUDA g = None /\
    setup_cmdclass g = build_ext.
Proof.
  unfold module_body.
  destruct trace; cbn; eexists; (split; [reflexivity |]); cbn; repeat split.
Qed.

(** C7: with GPU support enabled and the toolkit located, the body
    ends with the three defines -DUSE_CUDA=1, -DCHUNK_SIZE=262144 and
    -DNUM_THREADS=256 appended, the same and in the same order, to the
    base host flags and to the base GPU flags; with the kernel source
    appended to the sources; and with the toolkit's include directory,
    its lib64 directory and the library cudart in the extension. *)
Theorem module_body_with_cuda (np : string) (trace : bool) (w : World)
        (c : cudaconfig) (out : list printed) :
  locate_cuda w = Ok (c, out) ->
  let defines := ["-DUSE_CUDA=1"; "-DCHUNK_SIZE=262144"; "-DNUM_THREADS=256"] in
  exists g ext, module_body np true trace w = Ok (g, out) /\
    compiler_flags g = ["-w"; "-std=c++11"; "-O3"] ++ defines
                         ++ (if trace then [trace_define] else []) /\
    nvcc_flags g = ["-arch=sm_86"; "--ptxas-options=-v"; "-c";
                    "--compiler-options"; "'-fPIC'"; "-w"; "-std=c++11"; "-O3"]
                     ++ defines /\
    sources g = ["RangeLibc.pyx"; "../vendor/lodepng/lodepng.cpp"]
                  ++ ["../includes/kernels.cu"] /\
    include_dirs g = ["../"; np] ++ [include c] /\
    ext_modules g = [ext] /\
    ext_sources ext = sources g /\
    extra_compile_args ext = compiler_flags g /\
    ext_include_dirs ext = include_dirs g /\
    library_dirs ext = [lib64 c; "/usr/lib/x86_64-linux-gnu"] /\
    runtime_library_dirs ext = [lib64 c] /\
    libraries ext = ["cudart"].
Proof.
  intros H defines.
  destruct (module_body_cuda_ok np trace w c out H)
    as (g & Hg & Hcf & Hnf & Hs & Hi & _ & _ & ext & He & Hes & Hea & Hei & Hl & Hlib & Hr).
  exists g, ext. subst defines. cbn [app].
  rewrite Hg, Hcf, Hnf, Hs, Hi, He, Hes, Hea, Hei, Hl, Hlib, Hr, Hs, Hi, Hcf.
  repeat split.
Qed.

(** The pinned default installation, with tracing on. *)
Lemma module_body_with_cuda_witness :
  exists g ext, module_body "numpy/include" true true world_pinned =
    Ok (g, [OutDict "CUDA config: "
              (items (make_cudaconfig cuda_10_2 "/usr/local/cuda-10.2/bin/nvcc"))]) /\
    nvcc_flags g = ["-arch=sm_86"; "--ptxas-options=-v"; "-c";
                    "--compiler-options"; "'-fPIC'"; "-w"; "-std=c++11"; "-O3";
                    "-DUSE_CUDA=1"; "-DCHUNK_SIZE=262144"; "-DNUM_THREADS=256"] /\
    ext_modules g = [ext] /\
    libraries ext = ["cudart"].
Proof.
  destruct (module_body_with_cuda "numpy/include" true world_pinned
              (make_cudaconfig cuda_10_2 "/usr/local/cuda-10.2/bin/nvcc") _ eq_refl)
    as (g & ext & Hg & _ & Hnf & _ & _ & He & _ & _ & _ & _ & _ & Hlib).
  exists g, ext. auto.
Defined.

Lemma module_body_flags (np : string) (use_cuda trace : bool) (w : World)
      (g : Globals) (out : list printed) :
  module_body np use_cuda trace w = Ok (g, out) ->
  compiler_flags g =
    ["-w"; "-std=c++11"; "-O3"]
      ++ (if use_cuda
          then ["-DUSE_CUDA=1"; "-DCHUNK_SIZE=262144"; "-DNUM_THREADS=256"] else [])
      ++ (if trace then [trace_define] else []) /\
  nvcc_flags g =
    ["-arch=sm_86"; "--ptxas-options=-v"; "-c"; "--compiler-options";
     "'-fPIC'"; "-w"; "-std=c++11"; "-O3"]
      ++ (if use_cuda
          then ["-DUSE_CUDA=1"; "-DCHUNK_SIZE=262144"; "-DNUM_THREADS=256"] else []) /\
  sources g =
    ["RangeLibc.pyx"; "../vendor/lodepng/lodepng.cpp"]
      ++ (if use_cuda then ["../includes/kernels.cu"] else []).
Proof.
  destruct use_cuda.
  - destruct (locate_cuda w) as [[c o]|e] eqn:E.
    + destruct (module_body_cuda_ok np trace w c o E)
        as (g' & Hg & Hcf & Hnf & Hs & _).
      rewrite Hg. intros H. injection H as <- <-.
      rewrite Hcf, Hnf, Hs. auto.
    + rewrite (module_body_cuda_raise np trace w e E). discriminate.
  - destruct (module_body_host np trace w) as (g' & Hg & Hcf & Hnf & Hs & _).
    rewrite Hg. intros H. injection H as <- <-.
    rewrite Hcf, Hnf, Hs. auto.
Qed.

(** Whether the body succeeds does not depend on [trace]. *)
Lemma module_body_trace_ok (np : string) (use_cuda : bool) (w : World)
      (g : Globals) (out : list printed) (trace trace' : bool) :
  module_body np use_cuda trace w = Ok (g, out) ->
  exists g', module_body np use_cuda trace' w = Ok (g', out).
Proof.
  destruct use_cuda.
  - destruct (locate_cuda w) as [[c o]|e] eqn:E.
    + destruct (module_body_cuda_ok np trace w c o E) as (g1 & Hg1 & _).
      destruct (module_body_cuda_ok np trace' w c o E) as (g2 & Hg2 & _).
      rewrite Hg1. intros H. injection H as <- <-. eauto.
    + rewrite (module_body_cuda_raise np trace w e E). discriminate.
  - destruct (module_body_host np trace w) as (g1 & Hg1 & _).
    destruct (module_body_host np trace' w) as (g2 & Hg2 & _).
    rewrite Hg1. intros H. injection H as <- <-. eauto.
Qed.

(** C8: with tracing on, the host flag list is the list obtained with
    tracing off followed by the one define -D_MAKE_TRACE_MAP=1, which
    therefore occurs in it exactly once, and the GPU flag list is the
    same as with tracing off; with tracing off the define is in
    neither list. *)
Theorem trace_define_host_only (np : string) (use_cuda : bool) (w : World)
        (g_off : Globals) (out : list printed) :
  module_body np use_cuda false w = Ok (g_off, out) ->
  exists g_on, module_body np use_cuda true w = Ok (g_on, out) /\
    compiler_flags g_on = compiler_flags g_off ++ [trace_define] /\
    count_occ string_dec (compiler_flags g_on) trace_define = 1%nat /\
    nvcc_flags g_on = nvcc_flags g_off /\
    ~ In trace_define (nvcc_flags g_on) /\
    ~ In trace_define (compiler_flags g_off) /\
    ~ In trace_define (nvcc_flags g_off).
Proof.
  intros Hoff.
  destruct (module_body_trace_ok np use_cuda w g_off out false true Hoff)
    as (g_on & Hon).
  exists g_on. split; [exact Hon |].
  destruct (module_body_flags _ _ _ _ _ _ Hoff) as (Hcf & Hnf & _).
  destruct (module_body_flags _ _ _ _ _ _ Hon) as (Hcf' & Hnf' & _).
  rewrite Hcf, Hnf, Hcf', Hnf'.
  destruct use_cuda; cbn [app]; repeat split; try reflexivity;
    cbn [In]; unfold trace_define; intros H;
    repeat (destruct H as [H | H]; [discriminate H |]); exact H.
Qed.

(** Host-only build, tracing off and on. *)
Lemma trace_define_host_only_witness :
  exists g_on, module_body "numpy/include" false true world_bare = Ok (g_on, []) /\
    compiler_flags g_on = ["-w"; "-std=c++11"; "-O3"; "-D_MAKE_TRACE_MAP=1"] /\
    nvcc_flags g_on = ["-arch=sm_86"; "--ptxas-options=-v"; "-c";
                       "--compiler-options"; "'-fPIC'"; "-w"; "-std=c++11"; "-O3"].
Proof.
  destruct (trace_define_host_only "numpy/include" false world_bare _ [] eq_refl)
    as (g_on & Hon & Hcf & _ & Hnf & _).
  exists g_on. auto.
Defined.

(** A completed run of the script is a completed run of the body at
    the flags read from the environment. *)
Lemma setup_py_ok (np : string) (w : World) (out : list printed) (g : Globals) :
  setup_py np w = (out, Ok g) ->
  exists use_cuda trace out',
    (use_cuda = match environ w !! "WITH_CUDA" with
                | Some v => String.eqb (PyStr.lower v) "on"
                | None => false
                end) /\
    (trace = match environ w !! "TRACE" with
             | Some v => String.eqb (PyStr.lower v) "on"
             | None => false
             end) /\
    module_body np use_cuda trace (darwin_env w) = Ok (g, out').
Proof.
  unfold setup_py.
  pose proof (check_for_flag_fst w "WITH_CUDA" (MsgStr "Compiling with CUDA support")
    (MsgStr "Compiling without CUDA support. To enable CUDA use:")) as Hc.
  pose proof (check_for_flag_fst w "TRACE"
    (MsgStr "Compiling with trace enabled for Bresenham's Line")
    (MsgStr "Compiling without trace enabled for Bresenham's Line")) as Ht.
  destruct (check_for_flag w "WITH_CUDA" _ _) as [use_cuda o1].
  destruct (check_for_flag w "TRACE" _ _) as [trace o2].
  cbn [fst] in Hc, Ht.
  destruct (module_body np use_cuda trace (darwin_env w)) as [[g' o4]|e] eqn:E;
    [|discriminate].
  intros H. injection H as _ <-.
  exists use_cuda, trace, o4. auto.
Qed.

(** C9: two runs of the body with the same values of the two flags
    that both complete end with equal host flag lists, equal GPU flag
    lists and equal source lists, element for element and in the same
    order, whatever the file system, the environment and the numpy
    include path of either run; with equal inputs the two runs are
    equal altogether.  The same holds for two runs of the script that
    reach the call of [setup], in environments that give WITH_CUDA and
    TRACE the same values. *)
Theorem module_body_deterministic :
  (forall (np1 np2 : string) (use_cuda trace : bool) (w1 w2 : World)
          (g1 g2 : Globals) (out1 out2 : list printed),
      module_body np1 use_cuda trace w1 = Ok (g1, out1) ->
      module_body np2 use_cuda trace w2 = Ok (g2, out2) ->
      (compiler_flags g1 = compiler_flags g2 /\
       nvcc_flags g1 = nvcc_flags g2 /\
       sources g1 = sources g2)
      /\ (np1 = np2 -> w1 = w2 -> g1 = g2 /\ out1 = out2))
  /\ (forall (np1 np2 : string) (w1 w2 : World)
             (g1 g2 : Globals) (out1 out2 : list printed),
         setup_py np1 w1 = (out1, Ok g1) ->
         setup_py np2 w2 = (out2, Ok g2) ->
         environ w1 !! "WITH_CUDA" = environ w2 !! "WITH_CUDA" ->
         environ w1 !! "TRACE" = environ w2 !! "TRACE" ->
         compiler_flags g1 = compiler_flags g2 /\
         nvcc_flags g1 = nvcc_flags g2 /\
         sources g1 = sources g2).
Proof.
  assert (forall np1 np2 use_cuda trace w1 w2 g1 g2 out1 out2,
             module_body np1 use_cuda trace w1 = Ok (g1, out1) ->
             module_body np2 use_cuda trace w2 = Ok (g2, out2) ->
             compiler_flags g1 = compiler_flags g2 /\
             nvcc_flags g1 = nvcc_flags g2 /\
             sources g1 = sources g2) as Hflags.
  { intros np1 np2 use_cuda trace w1 w2 g1 g2 out1 out2 H1 H2.
    destruct (module_body_flags _ _ _ _ _ _ H1) as (Hcf1 & Hnf1 & Hs1).
    destruct (module_body_flags _ _ _ _ _ _ H2) as (Hcf2 & Hnf2 & Hs2).
    rewrite Hcf1, Hcf2, Hnf1, Hnf2, Hs1, Hs2. auto. }
  split.
  - intros np1 np2 use_cuda trace w1 w2 g1 g2 out1 out2 H1 H2. split.
    + apply (Hflags _ _ _ _ _ _ _ _ _ _ H1 H2).
    + intros -> ->. rewrite H1 in H2. injection H2 as <- <-. auto.
  - intros np1 np2 w1 w2 g1 g2 out1 out2 H1 H2 Ec Et.
    destruct (setup_py_ok _ _ _ _ H1) as (u1 & t1 & o1 & Hu1 & Ht1 & Hb1).
    destruct (setup_py_ok _ _ _ _ H2) as (u2 & t2 & o2 & Hu2 & Ht2 & Hb2).
    rewrite Ec in Hu1. rewrite Et in Ht1. subst u1 t1 u2 t2.
    apply (Hflags _ _ _ _ _ _ _ _ _ _ Hb1 Hb2).
Qed.

(** The same flags on two different installations: the pinned default
    directory, and a toolkit reached through PATH. *)
Lemma module_body_deterministic_witness :
  exists g1 g2 out1 out2,
    module_body "numpy/include" true true world_pinned = Ok (g1, out1) /\
    module_body "site/numpy" true true world_on_path = Ok (g2, out2) /\
    compiler_flags g1 = compiler_flags g2 /\
    nvcc_flags g1 = nvcc_flags g2 /\
    sources g1 = sources g2.
Proof.
  eexists _, _, _, _.
  split; [vm_compute; reflexivity |].
  split; [vm_compute; reflexivity |].
  apply (proj1 module_body_deterministic "numpy/include" "site/numpy" true true
           world_pinned world_on_path _ _ _ _ eq_refl eq_refl).
Defined.

(** ** The per-file compiler switch *)

Section DispatcherFacts.

Variable split_quoted : string -> list string.
Variable run_compiler : Call -> option string.
Variable g : Globals.
Variable default_compiler_so : list string.

Local Abbreviation compile1 := (_compile split_quoted run_compiler g default_compiler_so).

(** A host source: the default executable is set before the compile
    step runs, so it is the active one on both exits. *)
Lemma compile_host (obj src ext : string) (cc ep pp : list string)
      (st : BuildState) :
  is_cu src = false ->
  compile1 obj src ext cc ep pp st =
  let call := mkCall default_compiler_so obj src ext cc (compiler_flags g) pp in
  match run_compiler call with
  | None => (Ok tt, with_so st default_compiler_so [call])
  | Some m => (Raise (CompileError m), with_so st default_compiler_so [call])
  end.
Proof.
  unfold is_cu. intros H.
  unfold _compile, mbind, M_bind, mret, M_ret, set_compiler_so, super_compile.
  rewrite H. cbn.
  destruct (run_compiler _); reflexivity.
Qed.

(** A kernel source: nvcc is made the active executable, and the
    default comes back only after the compile step has returned. *)
Lemma compile_cu (obj src ext : string) (cc ep pp : list string)
      (st : BuildState) (c : cudaconfig) :
  is_cu src = true -> CUDA g = Some c ->
  compile1 obj src ext cc ep pp st =
  let call := mkCall (split_quoted (nvcc c)) obj src ext cc (nvcc_flags g) pp in
  match run_compiler call with
  | None => (Ok tt, with_so st default_compiler_so [call])
  | Some m => (Raise (CompileError m), with_so st (split_quoted (nvcc c)) [call])
  end.
Proof.
  unfold is_cu. intros H Hc.
  unfold _compile, mbind, M_bind, mret, M_ret, set_executable,
    set_compiler_so, super_compile, global_CUDA.
  rewrite H, Hc. cbn.
  destruct (run_compiler _); reflexivity.
Qed.

Lemma compile_cu_unbound (obj src ext : string) (cc ep pp : list string)
      (st : BuildState) :
  is_cu src = true -> CUDA g = None ->
  compile1 obj src ext cc ep pp st = (Raise (NameError "CUDA"), st).
Proof.
  unfold is_cu. intros H Hc.
  unfold _compile, mbind, M_bind, global_CUDA.
  rewrite H, Hc. reflexivity.
Qed.

End DispatcherFacts.

Section DispatcherLaws.

Variable split_quoted : string -> list string.
Variable run_compiler : Call -> option string.
Variable g : Globals.
Variable default_compiler_so : list string.

Local Abbreviation compile1 := (_compile split_quoted run_compiler g default_compiler_so).
Local Abbreviation compile_all :=
  (compile_units split_quoted run_compiler g default_compiler_so).

(** After a normal return the default executable is the active one. *)
Lemma compile_ok_restores (obj src ext : string) (cc ep pp : list string)
      (st st' : BuildState) :
  compile1 obj src ext cc ep pp st = (Ok tt, st') ->
  compiler_so (compiler st') = default_compiler_so.
Proof.
  intros H.
  destruct (is_cu src) eqn:Hcu.
  - destruct (CUDA g) as [c|] eqn:Hc.
    + rewrite (compile_cu _ _ _ _ _ _ _ _ _ _ st c Hcu Hc) in H. cbv zeta in H.
      destruct (run_compiler _); [discriminate |].
      injection H as <-. reflexivity.
    + rewrite (compile_cu_unbound _ _ _ _ _ _ _ _ _ _ st Hcu Hc) in H.
      discriminate.
  - rewrite (compile_host _ _ _ _ _ _ _ _ _ _ st Hcu) in H. cbv zeta in H.
    destruct (run_compiler _); [discriminate |].
    injection H as <-. reflexivity.
Qed.

(** The outcome of one call of [_compile].  With CUDA unbound a
    [.cu] source raises the name error and nothing changes.  Otherwise
    exactly one compile step is run and the call returns normally or
    raises according to that step: its [CompileError] reaches the
    caller as it is.  The default executable is the active one after a
    normal return, and on either exit for a source that is not a [.cu]
    file; when the compile step of a [.cu] file raises, the assignment
    after it is not run and nvcc is the active executable. *)
Lemma compile_outcome
      (obj src ext : string) (cc ep pp : list string)
      (st st' : BuildState) (r : result unit) :
  compile1 obj src ext cc ep pp st = (r, st') ->
  (is_cu src = true -> CUDA g = None ->
   r = Raise (NameError "CUDA") /\ st' = st)
  /\ (is_cu src = false \/ (exists c, CUDA g = Some c) ->
      exists call,
        spawned st' = spawned st ++ [call] /\ call_src call = src /\
        r = match run_compiler call with
            | None => Ok tt
            | Some m => Raise (CompileError m)
            end)
  /\ (r = Ok tt -> compiler_so (compiler st') = default_compiler_so)
  /\ (is_cu src = false -> compiler_so (compiler st') = default_compiler_so)
  /\ (forall c m, is_cu src = true -> CUDA g = Some c ->
        r = Raise (CompileError m) ->
        compiler_so (compiler st') = split_quoted (nvcc c)).
Proof.
  intros H.
  destruct (is_cu src) eqn:Hcu.
  - destruct (CUDA g) as [c|] eqn:Hc.
    + rewrite (compile_cu _ _ _ _ _ _ _ _ _ _ st c Hcu Hc) in H. cbv zeta in H.
      destruct (run_compiler _) as [m|] eqn:Hrun; injection H as <- <-;
        (split; [discriminate |]);
        (split; [intros _; eexists; split; [reflexivity |];
                 split; [reflexivity |]; rewrite Hrun; reflexivity |]);
        repeat split; try discriminate; try reflexivity.
      intros c' m' _ Hc' _. injection Hc' as <-. reflexivity.
    + rewrite (compile_cu_unbound _ _ _ _ _ _ _ _ _ _ st Hcu Hc) in H.
      injection H as <- <-.
      split; [auto |].
      split; [intros [Hf | [c' Hc']]; discriminate |].
      repeat split; discriminate.
  - rewrite (compile_host _ _ _ _ _ _ _ _ _ _ st Hcu) in H. cbv zeta in H.
    destruct (run_compiler _) as [m|] eqn:Hrun; injection H as <- <-;
      (split; [discriminate |]);
      (split; [intros _; eexists; split; [reflexivity |];
               split; [reflexivity |]; rewrite Hrun; reflexivity |]);
      repeat split; try discriminate; try reflexivity.
Qed.

(** What one call of [_compile] adds to the record of compile steps:
    at most one step, and a step for a host source ran the default
    executable with the host flags. *)
Lemma compile1_steps (obj src ext : string) (cc ep pp : list string)
      (st : BuildState) :
  exists calls,
    spawned (snd (compile1 obj src ext cc ep pp st)) = spawned st ++ calls /\
    Forall (host_step_ok g default_compiler_so) calls.
Proof.
  destruct (is_cu src) eqn:Hcu.
  - destruct (CUDA g) as [c|] eqn:Hc.
    + rewrite (compile_cu _ _ _ _ _ _ _ _ _ _ st c Hcu Hc). cbv zeta.
      eexists (cons _ nil).
      destruct (run_compiler _); (split; [reflexivity |]);
        (constructor; [| constructor]);
        unfold host_step_ok; cbn [call_src]; rewrite Hcu; discriminate.
    + rewrite (compile_cu_unbound _ _ _ _ _ _ _ _ _ _ st Hcu Hc).
      exists []. split; [symmetry; apply app_nil_r | constructor].
  - rewrite (compile_host _ _ _ _ _ _ _ _ _ _ st Hcu). cbv zeta.
    eexists (cons _ nil).
    destruct (run_compiler _); (split; [reflexivity |]);
      (constructor; [| constructor]);
      unfold host_step_ok; cbn; auto.
Qed.

Lemma compile_all_cons (obj src ext : string) (rest : list compile_unit)
      (cc ep pp : list string) (st : BuildState) :
  compile_all cc ep pp ((obj, src, ext) :: rest) st =
  match compile1 obj src ext cc ep pp st with
  | (Ok _, st') => compile_all cc ep pp rest st'
  | (Raise e, st') => (Raise e, st')
  end.
Proof. reflexivity. Qed.

(** C3: in any sequence of dispatched sources, started from any state
    of the compiler object, every compile step run for a source that
    is not a [.cu] file ran the captured default executable with the
    host flag list, whatever was compiled before it; and right after a
    [.cu] file has compiled successfully the default executable is the
    active one again, and the next host source is compiled with it and
    the host flags. *)
Theorem dispatch_round_trip :
  (forall (units : list compile_unit) (cc ep pp : list string) (st : BuildState),
      exists calls,
        spawned (snd (compile_all cc ep pp units st)) = spawned st ++ calls /\
        Forall (host_step_ok g default_compiler_so) calls)
  /\ (forall obj1 src1 ext1 obj2 src2 ext2 cc ep pp st st1,
        is_cu src1 = true -> is_cu src2 = false ->
        compile1 obj1 src1 ext1 cc ep pp st = (Ok tt, st1) ->
        compiler_so (compiler st1) = default_compiler_so /\
        exists call,
          spawned (snd (compile1 obj2 src2 ext2 cc ep pp st1)) = spawned st1 ++ [call] /\
          call_src call = src2 /\
          call_compiler_so call = default_compiler_so /\
          call_postargs call = compiler_flags g).
Proof.
  split.
  - intros units cc ep pp. induction units as [|[[obj src] ext] rest IH]; intros st.
    + exists []. split; [symmetry; apply app_nil_r | constructor].
    + rewrite compile_all_cons.
      destruct (compile1_steps obj src ext cc ep pp st) as (c1 & Hs1 & Hf1).
      destruct (compile1 obj src ext cc ep pp st) as [[[]|e] st'] eqn:E;
        cbn [snd] in Hs1.
      * destruct (IH st') as (c2 & Hs2 & Hf2).
        exists (c1 ++ c2). split.
        -- rewrite Hs2, Hs1. symmetry. apply app_assoc.
        -- apply Forall_app. auto.
      * exists c1. auto.
  - intros obj1 src1 ext1 obj2 src2 ext2 cc ep pp st st1 Hcu1 Hcu2 H1.
    split.
    + apply (compile_ok_restores obj1 src1 ext1 cc ep pp st st1 H1).
    + rewrite (compile_host _ _ _ _ _ _ _ _ _ _ st1 Hcu2). cbv zeta.
      eexists. destruct (run_compiler _); cbn; auto.
Qed.

End DispatcherLaws.

(** A kernel source compiled successfully from the sample state. *)
Lemma compile_outcome_witness :
  compiler_so
    (compiler
       (snd (_compile one_word (fun _ => None) sample_globals ["gcc"; "-fPIC"]
               "build/kernels.o" "../includes/kernels.cu" ".cu" [] [] []
               sample_state)))
  = ["gcc"; "-fPIC"].
Proof.
  refine (proj1 (proj2 (proj2
            (compile_outcome one_word (fun _ => None) sample_globals
               ["gcc"; "-fPIC"] "build/kernels.o" "../includes/kernels.cu" ".cu"
               [] [] [] sample_state _ (Ok tt) _))) eq_refl).
  reflexivity.
Defined.

(** C1: the sample compiler object is customised, which captures gcc
    as the default executable, and the kernel source is dispatched
    with an nvcc that fails.  The [CompileError] reaches the caller
    and the active executable is then nvcc, not the captured default:
    the assignment of line 112 is skipped on this exit.  A host source
    dispatched from the same state with a failing compiler leaves the
    default active, and so does the kernel source when nvcc
    succeeds. *)
Theorem compile_cu_error_not_restored :
  let failing := fun _ : Call => Some "compiler fatal" in
  let st1 := fst (_customize_compiler_for_nvcc sample_state) in
  let default_compiler_so := snd (_customize_compiler_for_nvcc sample_state) in
  let kernel run :=
    _compile one_word run sample_globals default_compiler_so
             "build/kernels.o" "../includes/kernels.cu" ".cu" [] [] [] st1 in
  let host run :=
    _compile one_word run sample_globals default_compiler_so
             "build/lodepng.o" "../vendor/lodepng/lodepng.cpp" ".cpp" [] [] [] st1 in
  default_compiler_so = ["gcc"; "-fPIC"]
  /\ compiler_so (compiler st1) = default_compiler_so
  /\ fst (kernel failing) = Raise (CompileError "compiler fatal")
  /\ compiler_so (compiler (snd (kernel failing))) = ["/usr/local/cuda-10.2/bin/nvcc"]
  /\ compiler_so (compiler (snd (kernel failing))) <> default_compiler_so
  /\ fst (host failing) = Raise (CompileError "compiler fatal")
  /\ compiler_so (compiler (snd (host failing))) = default_compiler_so
  /\ fst (kernel (fun _ => None)) = Ok tt
  /\ compiler_so (compiler (snd (kernel (fun _ => None)))) = default_compiler_so.
Proof.
  cbv zeta. repeat split; try reflexivity.
  vm_compute. discriminate.
Qed.

(** The sequence host.cpp, kernel.cu, host2.cpp dispatched through the
    switch installed on the sample compiler object, every compile step
    succeeding: the third step runs the captured default. *)
Example dispatch_three_sources :
  map (fun c => (call_src c, call_compiler_so c))
      (spawned
         (snd (compile_units one_word (fun _ => None) sample_globals
                 (snd (_customize_compiler_for_nvcc sample_state)) [] [] []
                 [("host.o", "host.cpp", ".cpp"); ("kernel.o", "kernel.cu", ".cu");
                  ("host2.o", "host2.cpp", ".cpp")]
                 (fst (_customize_compiler_for_nvcc sample_state)))))
  = [("host.cpp", ["gcc"; "-fPIC"]);
     ("kernel.cu", ["/usr/local/cuda-10.2/bin/nvcc"]);
     ("host2.cpp", ["gcc"; "-fPIC"])].
Proof. reflexivity. Qed.

(** A kernel source compiled successfully and a host source dispatched
    next: the default is active in between and the host step runs it
    with the host flags.  And after a failed kernel compile, which
    leaves nvcc active, a host source dispatched next still runs the
    default executable. *)
Lemma dispatch_round_trip_witness :
  (let st1 := snd (_compile one_word (fun _ => None) sample_globals
                     ["gcc"; "-fPIC"] "kernel.o" "kernel.cu" ".cu" [] [] []
                     sample_state) in
   compiler_so (compiler st1) = ["gcc"; "-fPIC"] /\
   exists call,
     spawned (snd (_compile one_word (fun _ => None) sample_globals
                     ["gcc"; "-fPIC"] "host2.o" "host2.cpp" ".cpp" [] [] [] st1))
     = spawned st1 ++ [call] /\
     call_src call = "host2.cpp" /\
     call_compiler_so call = ["gcc"; "-fPIC"] /\
     call_postargs call = compiler_flags sample_globals)
  /\
  (let st1 := snd (_compile one_word (fun _ => Some "nvcc fatal") sample_globals
                     ["gcc"; "-fPIC"] "kernel.o" "kernel.cu" ".cu" [] [] []
                     sample_state) in
   compiler_so (compiler st1) = ["/usr/local/cuda-10.2/bin/nvcc"] /\
   exists calls,
     spawned (snd (compile_units one_word (fun _ => None) sample_globals
                     ["gcc"; "-fPIC"] [] [] [] [("host2.o", "host2.cpp", ".cpp")] st1))
     = spawned st1 ++ calls /\
     Forall (host_step_ok sample_globals ["gcc"; "-fPIC"]) calls).
Proof.
  cbv zeta. split.
  - apply (proj2 (dispatch_round_trip one_word (fun _ => None) sample_globals
                    ["gcc"; "-fPIC"])
             "kernel.o" "kernel.cu" ".cu" "host2.o" "host2.cpp" ".cpp" [] [] []
             sample_state); reflexivity.
  - split; [reflexivity |].
    apply (proj1 (dispatch_round_trip one_word (fun _ => None) sample_globals
                    ["gcc"; "-fPIC"])).
Defined.

(** * Further properties *)

(** ** What [check_for_flag] prints *)

(** X1: an enabled flag prints its enable message and nothing else; a
    disabled flag prints its disable message followed by the install
    hint that names the flag; a message given as [False] silences the
    call altogether, hint included. *)
Theorem check_for_flag_output
        (w : World) (flag_str : string) (truemsg falsemsg : msg) :
  snd (check_for_flag w flag_str truemsg falsemsg) =
  if fst (check_for_flag w flag_str truemsg falsemsg) then
    match truemsg with
    | MsgStr s => [OutStr s]
    | MsgFalse => []
    end
  else
    match falsemsg with
    | MsgStr s =>
        [OutStr s;
         OutStr ("   $ sudo " +:+ flag_str +:+ "=ON python setup.py install")]
    | MsgFalse => []
    end.
Proof.
  unfold check_for_flag.
  destruct (environ w !! flag_str) as [v|];
    [destruct (String.eqb (PyStr.lower v) "on") |];
    destruct truemsg, falsemsg; reflexivity.
Qed.

(** ** The search of [find_in_path] *)

Lemma find_in_dirs_some (w : World) (name : string) (dirs : list string)
      (n : string) :
  find_in_dirs w name dirs = Some n ->
  exists before dir after,
    dirs = before ++ dir :: after /\
    (forall d, In d before -> path_exists w (OsPath.pjoin d [name]) = false) /\
    path_exists w (OsPath.pjoin dir [name]) = true /\
    n = OsPath.abspath (getcwd w) (OsPath.pjoin dir [name]).
Proof.
  induction dirs as [|d ds IH]; cbn [find_in_dirs]; [discriminate |].
  destruct (path_exists w (OsPath.pjoin d [name])) eqn:E.
  - intros H. injection H as <-.
    exists [], d, ds. repeat split; auto. intros d' [].
  - intros H. destruct (IH H) as (before & dir & after & -> & Hb & Hd & Hn).
    exists (d :: before), dir, after. repeat split; auto.
    intros d' [<- | Hin]; [exact E | apply Hb, Hin].
Qed.

(** X2: [find_in_path] returns a path exactly when some directory of
    the search path holds the name, and the path returned is the
    absolute form of the entry in the first such directory; it returns
    [None] exactly when no directory holds it. *)
Theorem find_in_path_first_hit (w : World) (name path : string) :
  (forall n,
      find_in_path w name path = Some n <->
      exists before dir after,
        PyStr.split OsPath.pathsep path = before ++ dir :: after /\
        (forall d, In d before -> path_exists w (OsPath.pjoin d [name]) = false) /\
        path_exists w (OsPath.pjoin dir [name]) = true /\
        n = OsPath.abspath (getcwd w) (OsPath.pjoin dir [name]))
  /\ (find_in_path w name path = None <->
      forall dir, In dir (PyStr.split OsPath.pathsep path) ->
                  path_exists w (OsPath.pjoin dir [name]) = false).
Proof.
  unfold find_in_path. split.
  - intros n. split.
    + apply find_in_dirs_some.
    + intros (before & dir & after & Hs & Hb & Hd & ->).
      rewrite Hs. apply find_in_dirs_first; assumption.
  - apply find_in_dirs_none.
Qed.

Lemma pjoin_empty_dir (name : string) : OsPath.pjoin "" [name] = name.
Proof.
  unfold OsPath.pjoin, OsPath.join_step. cbn [fold_left].
  destruct (PyStr.startswith "/" name); reflexivity.
Qed.

(** X3: an empty entry of the search path stands for the working
    directory: the name is tested as a relative path.  So with an
    empty PATH the name is looked up in the working directory only,
    and an empty entry anywhere in PATH makes a file of that name in
    the working directory count as found. *)
Theorem find_in_path_empty_entry (w : World) (name : string) :
  find_in_path w name "" =
    (if path_exists w name then Some (OsPath.abspath (getcwd w) name) else None)
  /\ (forall path,
        In "" (PyStr.split OsPath.pathsep path) ->
        path_exists w name = true ->
        exists n, find_in_path w name path = Some n).
Proof.
  split.
  - unfold find_in_path. cbn [PyStr.split find_in_dirs].
    rewrite pjoin_empty_dir. reflexivity.
  - intros path Hin Hex.
    destruct (find_in_path w name path) as [n|] eqn:E; [eauto |].
    unfold find_in_path in E.
    pose proof (proj1 (find_in_dirs_none w name _) E "" Hin) as E1.
    rewrite pjoin_empty_dir in E1. congruence.
Qed.

(** The working directory has one file named nvcc and PATH has an
    empty entry after a directory without one. *)
Lemma find_in_path_empty_entry_witness :
  exists n,
    find_in_path (fs_world ∅ ["/usr/bin"] ["nvcc"]) "nvcc" "/usr/bin:" = Some n.
Proof.
  apply (proj2 (find_in_path_empty_entry (fs_world ∅ ["/usr/bin"] ["nvcc"]) "nvcc")
           "/usr/bin:").
  - right. left. reflexivity.
  - reflexivity.
Defined.

Lemma startswith_slash (p : string) :
  PyStr.startswith "/" p = true -> exists r, p = String "/"%char r.
Proof.
  unfold PyStr.startswith.
  destruct p as [|a r]; cbn [String.prefix]; [discriminate |].
  destruct (ascii_dec "/" a) as [<- | _]; [eauto | discriminate].
Qed.

Lemma startswith_slash_cons (r : string) :
  PyStr.startswith "/" (String "/"%char r) = true.
Proof. destruct r; reflexivity. Qed.

Lemma normpath_keeps_root (p : string) :
  PyStr.startswith "/" p = true ->
  PyStr.startswith "/" (OsPath.normpath p) = true.
Proof.
  intros H. destruct (startswith_slash p H) as [r ->].
  unfold OsPath.normpath.
  cbn [String.eqb]. rewrite H.
  destruct (PyStr.startswith "//" _ && negb (PyStr.startswith "///" _));
    cbn [append String.eqb Ascii.eqb]; apply startswith_slash_cons.
Qed.

Lemma abspath_isabs (cwd p : string) :
  OsPath.isabs cwd = true -> OsPath.isabs (OsPath.abspath cwd p) = true.
Proof.
  unfold OsPath.abspath, OsPath.isabs. intros Hc.
  apply normpath_keeps_root.
  destruct (PyStr.startswith "/" p) eqn:Hp; [exact Hp |].
  destruct (startswith_slash cwd Hc) as [c ->].
  unfold OsPath.pjoin, OsPath.join_step. cbn [fold_left]. rewrite Hp.
  destruct (_ || _); cbn [append]; apply startswith_slash_cons.
Qed.

(** X4: when the working directory is an absolute path, whatever
    [find_in_path] returns is absolute, also for relative or empty
    entries of the search path. *)
Theorem find_in_path_absolute (w : World) (name path n : string) :
  OsPath.isabs (getcwd w) = true ->
  find_in_path w name path = Some n ->
  OsPath.isabs n = true.
Proof.
  intros Hc H. unfold find_in_path in H.
  destruct (find_in_dirs_some w name _ n H) as (_ & dir & _ & _ & _ & _ & ->).
  apply abspath_isabs, Hc.
Qed.

(** A relative entry of PATH, resolved against the working directory. *)
Lemma find_in_path_absolute_witness :
  OsPath.isabs "/home/build/tools/nvcc" = true.
Proof.
  apply (find_in_path_absolute
           (fs_world ∅ ["tools"] ["tools/nvcc"]) "nvcc" "/usr/bin:tools"
           "/home/build/tools/nvcc"); reflexivity.
Defined.

(** ** Outcomes of [locate_cuda] *)

Lemma locate_cuda_ok_exists (w : World) (c : cudaconfig) (out : list printed) :
  locate_cuda w = Ok (c, out) ->
  check_items w (items c) = Ok tt /\ out = [OutDict "CUDA config: " (items c)].
Proof.
  unfold locate_cuda.
  destruct (choose_root w) as [[h n]|e]; [|discriminate].
  destruct (check_items w (items (make_cudaconfig h n))) as [[]|e] eqn:E;
    [|discriminate].
  intros H. injection H as <- <-. auto.
Qed.

(** X5: a configuration returned by [locate_cuda] has all four of its
    paths existing, its include and lib64 entries are the
    sub-directories include and lib64 of its home, and it is exactly
    what was printed, under the label "CUDA config: ". *)
Theorem locate_cuda_ok_valid (w : World) (c : cudaconfig) (out : list printed) :
  locate_cuda w = Ok (c, out) ->
  path_exists w (home c) = true /\ path_exists w (nvcc c) = true /\
  path_exists w (include c) = true /\ path_exists w (lib64 c) = true /\
  include c = OsPath.pjoin (home c) ["include"] /\
  lib64 c = OsPath.pjoin (home c) ["lib64"] /\
  out = [OutDict "CUDA config: "
           [("home", home c); ("nvcc", nvcc c);
            ("include", include c); ("lib64", lib64 c)]].
Proof.
  intros H.
  destruct (locate_cuda_ok_exists w c out H) as [Hc Ho].
  destruct (locate_cuda_ok_root w c out H) as [_ Hm].
  pose proof (proj1 (check_items_ok w (items c)) Hc) as Hall.
  repeat split.
  - apply (Hall ("home", home c)). simpl. tauto.
  - apply (Hall ("nvcc", nvcc c)). simpl. tauto.
  - apply (Hall ("include", include c)). simpl. tauto.
  - apply (Hall ("lib64", lib64 c)). simpl. tauto.
  - rewrite Hm at 1. reflexivity.
  - rewrite Hm at 1. reflexivity.
  - exact Ho.
Qed.

(** The toolkit reached through PATH. *)
Lemma locate_cuda_ok_valid_witness :
  path_exists world_on_path "/opt/cuda/include" = true.
Proof.
  apply (locate_cuda_ok_valid world_on_path
           (make_cudaconfig "/opt/cuda" "/opt/cuda/bin/nvcc")
           [OutDict "CUDA config: "
              (items (make_cudaconfig "/opt/cuda" "/opt/cuda/bin/nvcc"))]
           eq_refl).
Defined.

(** X6: every failure of [locate_cuda] is one of three: the key error
    for PATH, raised only when both default directories are absent
    and neither CUDAHOME nor PATH is set; the not-found error, raised
    only when both default directories are absent and CUDAHOME is
    unset; or the invalid-path error for one of the keys home, nvcc,
    include, lib64 with a path that does not exist. *)
Theorem locate_cuda_failures (w : World) (e : exn) :
  locate_cuda w = Raise e ->
  (e = KeyError "PATH" /\
   isdir w cuda_10_2 = false /\ isdir w cuda_default = false /\
   environ w !! "CUDAHOME" = None /\ environ w !! "PATH" = None)
  \/ (e = EnvironmentError not_found_msg /\
      isdir w cuda_10_2 = false /\ isdir w cuda_default = false /\
      environ w !! "CUDAHOME" = None /\
      exists path, environ w !! "PATH" = Some path /\
                   find_in_path w "nvcc" path = None)
  \/ (exists k v, In k ["home"; "nvcc"; "include"; "lib64"] /\
                  path_exists w v = false /\
                  e = EnvironmentError (invalid_msg k v)).
Proof.
  unfold locate_cuda.
  destruct (choose_root w) as [[h n]|e0] eqn:Hroot.
  - destruct (check_items w (items (make_cudaconfig h n))) as [[]|e1] eqn:E;
      [discriminate |].
    intros H. injection H as <-. right. right.
    destruct (check_items_raise w _ e1 E) as (k & v & Hin & Hv & ->).
    exists k, v. split; [|auto].
    cbn [items In] in Hin. cbn [In].
    destruct Hin as [Hk | [Hk | [Hk | [Hk | []]]]]; injection Hk as <- _; tauto.
  - intros H. injection H as <-.
    unfold choose_root, environ_get in Hroot.
    destruct (isdir w cuda_10_2); [discriminate |].
    destruct (isdir w cuda_default); [discriminate |].
    destruct (environ w !! "CUDAHOME"); [discriminate |].
    destruct (environ w !! "PATH") as [path|] eqn:Hp.
    + destruct (find_in_path w "nvcc" path) eqn:Hf; [discriminate |].
      injection Hroot as <-. right. left. eauto 10.
    + injection Hroot as <-. left. auto.
Qed.

(** The stale CUDAHOME: the failure is the invalid-path kind. *)
Lemma locate_cuda_failures_witness :
  (EnvironmentError "The CUDA home path could not be located in /opt/gone"
   = KeyError "PATH" /\
   isdir world_stale_cudahome cuda_10_2 = false /\
   isdir world_stale_cudahome cuda_default = false /\
   environ world_stale_cudahome !! "CUDAHOME" = None /\
   environ world_stale_cudahome !! "PATH" = None)
  \/ (EnvironmentError "The CUDA home path could not be located in /opt/gone"
      = EnvironmentError not_found_msg /\
      isdir world_stale_cudahome cuda_10_2 = false /\
      isdir world_stale_cudahome cuda_default = false /\
      environ world_stale_cudahome !! "CUDAHOME" = None /\
      exists path, environ world_stale_cudahome !! "PATH" = Some path /\
                   find_in_path world_stale_cudahome "nvcc" path = None)
  \/ (exists k v, In k ["home"; "nvcc"; "include"; "lib64"] /\
                  path_exists world_stale_cudahome v = false /\
                  EnvironmentError "The CUDA home path could not be located in /opt/gone"
                  = EnvironmentError (invalid_msg k v)).
Proof.
  apply (locate_cuda_failures world_stale_cudahome). reflexivity.
Defined.

(** ** What [locate_cuda] depends on *)

Lemma find_in_dirs_ext (w w' : World) (name : string) (dirs : list string) :
  path_exists w' = path_exists w -> getcwd w' = getcwd w ->
  find_in_dirs w' name dirs = find_in_dirs w name dirs.
Proof.
  intros He Hc. induction dirs as [|d ds IH]; cbn [find_in_dirs]; [reflexivity |].
  rewrite He, Hc, IH. reflexivity.
Qed.

Lemma check_items_ext (w w' : World) (kvs : list (string * string)) :
  (forall kv, In kv kvs -> path_exists w' (snd kv) = path_exists w (snd kv)) ->
  check_items w' kvs = check_items w kvs.
Proof.
  induction kvs as [|[k v] rest IH]; intros H; cbn [check_items]; [reflexivity |].
  pose proof (H (k, v) (or_introl eq_refl)) as Hk. cbn [snd] in Hk.
  rewrite Hk.
  rewrite IH; [reflexivity |].
  intros kv Hin. apply H. right. exact Hin.
Qed.

Lemma locate_cuda_ext (w w' : World) :
  isdir w' = isdir w -> path_exists w' = path_exists w -> getcwd w' = getcwd w ->
  environ w' !! "CUDAHOME" = environ w !! "CUDAHOME" ->
  environ w' !! "PATH" = environ w !! "PATH" ->
  locate_cuda w' = locate_cuda w.
Proof.
  intros Hd He Hc Hh Hp.
  assert (choose_root w' = choose_root w) as Hroot.
  { unfold choose_root, environ_get, find_in_path.
    rewrite Hd, Hh, Hp.
    destruct (isdir w cuda_10_2); [reflexivity |].
    destruct (isdir w cuda_default); [reflexivity |].
    destruct (environ w !! "CUDAHOME"); [reflexivity |].
    destruct (environ w !! "PATH") as [path|]; [|reflexivity].
    rewrite (find_in_dirs_ext w w' "nvcc" _ He Hc). reflexivity. }
  unfold locate_cuda. rewrite Hroot.
  destruct (choose_root w) as [[h n]|e]; [|reflexivity].
  rewrite (check_items_ext w w'); [reflexivity |].
  intros kv _. rewrite He. reflexivity.
Qed.

(** X7: of the environment [locate_cuda] reads the variables CUDAHOME
    and PATH and nothing else: replacing the environment by any other
    that gives these two the same values (or leaves them equally
    unset) does not change its result. *)
Theorem locate_cuda_reads_two_variables (w : World) (e : gmap string string) :
  e !! "CUDAHOME" = environ w !! "CUDAHOME" ->
  e !! "PATH" = environ w !! "PATH" ->
  locate_cuda (with_environ w e) = locate_cuda w.
Proof.
  intros Hh Hp. apply locate_cuda_ext; auto.
Qed.

(** Adding a variable the locator does not read. *)
Lemma locate_cuda_reads_two_variables_witness :
  locate_cuda (with_environ world_on_path
                 (<["CUDA_PATH" := "/opt/other"]> (environ world_on_path)))
  = locate_cuda world_on_path.
Proof.
  apply (locate_cuda_reads_two_variables world_on_path); reflexivity.
Defined.

Lemma locate_cuda_after_darwin (w : World) :
  locate_cuda (darwin_env w) = locate_cuda w.
Proof.
  unfold darwin_env.
  destruct (String.eqb (PyStr.lower (platform_system w)) "darwin"); [|reflexivity].
  apply locate_cuda_ext; try reflexivity; cbn [environ with_environ];
    rewrite !lookup_insert_ne by discriminate; reflexivity.
Qed.

(** X8: on macOS the script sets CC to c++ and
    MACOSX_DEPLOYMENT_TARGET to the system version and leaves every
    other variable as it was, and on other platforms it leaves the
    environment alone; in both cases what [locate_cuda] returns or
    raises afterwards is what it would have before. *)
Theorem darwin_env_effect (w : World) :
  (String.eqb (PyStr.lower (platform_system w)) "darwin" = true ->
   environ (darwin_env w) !! "CC" = Some "c++" /\
   environ (darwin_env w) !! "MACOSX_DEPLOYMENT_TARGET" = Some (mac_ver w))
  /\ (String.eqb (PyStr.lower (platform_system w)) "darwin" = false ->
      darwin_env w = w)
  /\ (forall k, k <> "CC" -> k <> "MACOSX_DEPLOYMENT_TARGET" ->
        environ (darwin_env w) !! k = environ w !! k)
  /\ locate_cuda (darwin_env w) = locate_cuda w.
Proof.
  split; [|split; [|split]].
  - unfold darwin_env. intros ->. cbn [environ with_environ]. split.
    + apply lookup_insert_eq.
    + rewrite lookup_insert_ne by discriminate. apply lookup_insert_eq.
  - unfold darwin_env. intros ->. reflexivity.
  - intros k H1 H2. unfold darwin_env.
    destruct (String.eqb (PyStr.lower (platform_system w)) "darwin"); [|reflexivity].
    cbn [environ with_environ].
    rewrite !lookup_insert_ne by congruence. reflexivity.
  - apply locate_cuda_after_darwin.
Qed.

(** A macOS world: CC is set, PATH is kept. *)
Lemma darwin_env_effect_witness :
  environ (darwin_env (mkWorld (<["PATH" := "/usr/bin"]> ∅) (fun _ => false)
                               (fun _ => false) "/" "Darwin" "14.5"))
    !! "CC" = Some "c++".
Proof.
  apply (proj1 (darwin_env_effect _)). reflexivity.
Defined.

(** X9: when /usr/local/cuda-10.2 is a directory the outcome is
    decided by the existence of the four paths under it alone: two
    worlds that agree on those give the same result, whatever their
    environments, working directories and other files, so a broken
    pinned installation is never bypassed in favour of CUDAHOME or
    PATH.  The same holds for /usr/local/cuda when the pinned
    directory is absent. *)
Theorem locate_cuda_default_dir_decides (w w' : World) :
  (isdir w cuda_10_2 = true -> isdir w' cuda_10_2 = true ->
   (forall p, In p pinned_paths -> path_exists w' p = path_exists w p) ->
   locate_cuda w' = locate_cuda w)
  /\ (isdir w cuda_10_2 = false -> isdir w' cuda_10_2 = false ->
      isdir w cuda_default = true -> isdir w' cuda_default = true ->
      (forall p, In p default_paths -> path_exists w' p = path_exists w p) ->
      locate_cuda w' = locate_cuda w).
Proof.
  split.
  - intros H H' Hp. unfold locate_cuda, choose_root. rewrite H, H'.
    rewrite (check_items_ext w w'); [reflexivity |].
    intros kv Hin. apply Hp.
    destruct Hin as [<- | [<- | [<- | [<- | []]]]]; cbn; tauto.
  - intros H1 H1' H2 H2' Hp. unfold locate_cuda, choose_root.
    rewrite H1, H1', H2, H2'.
    rewrite (check_items_ext w w'); [reflexivity |].
    intros kv Hin. apply Hp.
    destruct Hin as [<- | [<- | [<- | [<- | []]]]]; cbn; tauto.
Qed.

(** The broken pinned directory decides, as it does in a world that
    has nothing else. *)
Lemma locate_cuda_default_dir_decides_witness :
  locate_cuda world_broken_pinned
  = locate_cuda (fs_world ∅ ["/usr/local/cuda-10.2"] []).
Proof.
  apply (proj1 (locate_cuda_default_dir_decides
                  (fs_world ∅ ["/usr/local/cuda-10.2"] []) world_broken_pinned)).
  - reflexivity.
  - reflexivity.
  - intros p [<- | [<- | [<- | [<- | []]]]]; reflexivity.
Defined.

(** ** The script up to the call of [setup] *)

Lemma setup_py_unfold (np : string) (w : World) :
  setup_py np w =
  match module_body np (with_cuda_on w) (trace_on w) (darwin_env w) with
  | Ok (g, out) => (flag_reports w ++ out, Ok g)
  | Raise e => (flag_reports w, Raise e)
  end.
Proof.
  unfold setup_py, flag_reports, with_cuda_on, trace_on.
  rewrite <- (check_for_flag_fst w "WITH_CUDA" (MsgStr "Compiling with CUDA support")
    (MsgStr "Compiling without CUDA support. To enable CUDA use:")).
  rewrite <- (check_for_flag_fst w "TRACE"
    (MsgStr "Compiling with trace enabled for Bresenham's Line")
    (MsgStr "Compiling without trace enabled for Bresenham's Line")).
  destruct (check_for_flag w "WITH_CUDA" _ _) as [use_cuda o1].
  destruct (check_for_flag w "TRACE" _ _) as [trace o2].
  cbn [fst snd].
  destruct (module_body np use_cuda trace (darwin_env w)) as [[g o4]|e];
    [|reflexivity].
  rewrite <- !app_assoc. reflexivity.
Qed.

(** X10: once numpy has given its include path, the module-level code
    that precedes the call of [setup] raises exactly when WITH_CUDA is
    on and [locate_cuda] raises, and then with that same error; the
    reports of both flags and the separator have been printed by then,
    and nothing after them.  What [setup] does once called is outside
    this statement. *)
Theorem setup_py_raises_iff (np : string) (w : World) (e : exn) :
  (snd (setup_py np w) = Raise e <->
   with_cuda_on w = true /\ locate_cuda w = Raise e)
  /\ (snd (setup_py np w) = Raise e -> fst (setup_py np w) = flag_reports w).
Proof.
  rewrite setup_py_unfold.
  destruct (with_cuda_on w).
  - destruct (locate_cuda w) as [[c o]|e'] eqn:El.
    + pose proof El as El'. rewrite <- locate_cuda_after_darwin in El'.
      destruct (module_body_cuda_ok np (trace_on w) (darwin_env w) c o El')
        as (g & Hg & _).
      rewrite Hg. cbn [fst snd].
      split; [split; [discriminate | intros [_ H]; discriminate] | discriminate].
    + pose proof El as El'. rewrite <- locate_cuda_after_darwin in El'.
      rewrite (module_body_cuda_raise np (trace_on w) (darwin_env w) e' El').
      cbn [fst snd]. split; [|reflexivity].
      split; [intros H; injection H as <-; auto |].
      intros [_ H]. injection H as <-. reflexivity.
  - destruct (module_body_host np (trace_on w) (darwin_env w)) as (g & Hg & _).
    rewrite Hg. cbn [fst snd].
    split; [split; [discriminate | intros [H _]; discriminate] | discriminate].
Qed.

(** WITH_CUDA=ON on a machine without any toolkit or PATH: the code
    before [setup] raises after the flag reports. *)
Lemma setup_py_raises_iff_witness :
  fst (setup_py "numpy/include" (fs_world (<["WITH_CUDA" := "ON"]> ∅) [] []))
  = flag_reports (fs_world (<["WITH_CUDA" := "ON"]> ∅) [] []).
Proof.
  apply (proj2 (setup_py_raises_iff "numpy/include"
                  (fs_world (<["WITH_CUDA" := "ON"]> ∅) [] []) (KeyError "PATH"))).
  reflexivity.
Defined.

(** X11: with WITH_CUDA unset or set to anything that does not lower
    to "on", the module-level code reaches the call of [setup] without
    raising and without looking at the file system: no toolkit is
    bound, the sources are the two host sources, and [setup] is called
    with setuptools' own [build_ext] and an extension that has no
    library directories or libraries; nothing is printed after the
    separator.  What [setup] does once called is outside this
    statement. *)
Theorem setup_py_host_only (np : string) (w : World) :
  with_cuda_on w = false ->
  exists g ext,
    setup_py np w = (flag_reports w, Ok g) /\
    CUDA g = None /\
    setup_cmdclass g = build_ext /\
    sources g = ["RangeLibc.pyx"; "../vendor/lodepng/lodepng.cpp"] /\
    include_dirs g = ["../"; np] /\
    ext_modules g = [ext] /\
    ext_sources ext = sources g /\
    extra_compile_args ext = compiler_flags g /\
    library_dirs ext = [] /\ libraries ext = [] /\ runtime_library_dirs ext = [].
Proof.
  intros Hoff. rewrite setup_py_unfold, Hoff.
  unfold module_body. cbn.
  destruct (trace_on w); cbn; do 2 eexists;
    (split; [rewrite app_nil_r; reflexivity |]); cbn; repeat split.
Qed.

(** WITH_CUDA=off while a complete pinned toolkit is installed. *)
Lemma setup_py_host_only_witness :
  exists g,
    snd (setup_py "numpy/include"
           (with_environ world_pinned (<["WITH_CUDA" := "off"]> ∅))) = Ok g /\
    CUDA g = None.
Proof.
  assert (with_cuda_on (with_environ world_pinned (<["WITH_CUDA" := "off"]> ∅))
          = false) as Hoff by reflexivity.
  destruct (setup_py_host_only "numpy/include"
              (with_environ world_pinned (<["WITH_CUDA" := "off"]> ∅)) Hoff)
    as (g & ext & Hs & Hc & _).
  exists g. rewrite Hs. auto.
Defined.

(** ** The lists the module body ends with *)

(** X12: in a completed module body a [.cu] file is among the sources
    exactly when GPU support is on, and exactly then the command class
    handed to [setup] is the one that installs the compiler switch and
    the global CUDA is bound; so a kernel source never reaches a build
    that lacks the switch or the toolkit configuration. *)
Theorem module_body_kernel_consistency
        (np : string) (use_cuda trace : bool) (w : World)
        (g : Globals) (out : list printed) :
  module_body np use_cuda trace w = Ok (g, out) ->
  (use_cuda = true <-> exists src, In src (sources g) /\ is_cu src = true)
  /\ (use_cuda = true <-> setup_cmdclass g = custom_build_ext)
  /\ (use_cuda = true <-> exists c, CUDA g = Some c).
Proof.
  destruct use_cuda.
  - destruct (locate_cuda w) as [[c o]|e] eqn:E.
    + destruct (module_body_cuda_ok np trace w c o E)
        as (g' & Hg & _ & _ & Hs & _ & Hc & Hcmd & _).
      rewrite Hg. intros H. injection H as <- <-.
      rewrite Hs, Hc, Hcmd.
      repeat split; auto; try discriminate.
      * intros _. exists "../includes/kernels.cu". split; [cbn; tauto | reflexivity].
      * intros _. eauto.
    + rewrite (module_body_cuda_raise np trace w e E). discriminate.
  - destruct (module_body_host np trace w) as (g' & Hg & _ & _ & Hs & _ & Hc & Hcmd).
    rewrite Hg. intros H. injection H as <- <-.
    rewrite Hs, Hc, Hcmd.
    repeat split; try discriminate.
    + intros (src & [<- | [<- | []]] & Hcu); vm_compute in Hcu; discriminate.
    + intros (c & H). discriminate.
Qed.

(** The GPU build on the pinned installation has a kernel source. *)
Lemma module_body_kernel_consistency_witness :
  exists src, In src (sources sample_globals) /\ is_cu src = true.
Proof.
  apply (proj1 (proj1 (module_body_kernel_consistency "numpy/include" true false
                         world_pinned sample_globals _ eq_refl))).
  reflexivity.
Defined.

Ltac nodup_strings :=
  repeat (constructor; [cbn [In]; intuition discriminate |]); constructor.

(** X13: in a completed module body neither flag list nor the source
    list holds an entry twice, whatever the two flags are, and every
    host flag other than the trace define is also a GPU flag. *)
Theorem module_body_lists_nodup
        (np : string) (use_cuda trace : bool) (w : World)
        (g : Globals) (out : list printed) :
  module_body np use_cuda trace w = Ok (g, out) ->
  List.NoDup (compiler_flags g) /\ List.NoDup (nvcc_flags g) /\
  List.NoDup (sources g) /\
  (forall f, In f (compiler_flags g) -> f <> trace_define -> In f (nvcc_flags g)).
Proof.
  intros H. destruct (module_body_flags _ _ _ _ _ _ H) as (Hcf & Hnf & Hs).
  rewrite Hcf, Hnf, Hs. unfold trace_define.
  destruct use_cuda, trace; cbn [app];
    (split; [nodup_strings |]); (split; [nodup_strings |]);
    (split; [nodup_strings |]);
    intros f Hin Hne; cbn [In] in *;
    repeat (destruct Hin as [Hin | Hin]; [subst f; tauto |]); tauto.
Qed.

(** The GPU build with tracing on. *)
Lemma module_body_lists_nodup_witness :
  List.NoDup ["-w"; "-std=c++11"; "-O3"; "-DUSE_CUDA=1"; "-DCHUNK_SIZE=262144";
              "-DNUM_THREADS=256"; "-D_MAKE_TRACE_MAP=1"].
Proof.
  assert (exists g out, module_body "numpy/include" true true world_pinned = Ok (g, out)
                        /\ compiler_flags g =
                           ["-w"; "-std=c++11"; "-O3"; "-DUSE_CUDA=1";
                            "-DCHUNK_SIZE=262144"; "-DNUM_THREADS=256";
                            "-D_MAKE_TRACE_MAP=1"]) as (g & out & Hg & Hcf).
  { eexists _, _. split; reflexivity. }
  rewrite <- Hcf.
  apply (module_body_lists_nodup "numpy/include" true true world_pinned g out Hg).
Defined.

(** ** More on the compiler switch *)

Section DispatcherSteps.

Variable split_quoted : string -> list string.
Variable run_compiler : Call -> option string.
Variable g : Globals.
Variable default_compiler_so : list string.

Local Abbreviation compile1 := (_compile split_quoted run_compiler g default_compiler_so).

(** The three ways a call of [_compile] can end. *)
Lemma compile1_cases (obj src ext : string) (cc ep pp : list string)
      (st : BuildState) :
  (compile1 obj src ext cc ep pp st = (Raise (NameError "CUDA"), st) /\
   is_cu src = true /\ CUDA g = None)
  \/ exists so,
      let call := mkCall so obj src ext cc
                    (if is_cu src then nvcc_flags g else compiler_flags g) pp in
      (run_compiler call = None /\
       compile1 obj src ext cc ep pp st = (Ok tt, with_so st default_compiler_so [call]))
      \/ (exists m, run_compiler call = Some m /\
            compile1 obj src ext cc ep pp st =
            (Raise (CompileError m), with_so st so [call])).
Proof.
  destruct (is_cu src) eqn:Hcu.
  - destruct (CUDA g) as [c|] eqn:Hc.
    + right. exists (split_quoted (nvcc c)). cbv zeta.
      rewrite (compile_cu _ _ _ _ _ _ _ _ _ _ st c Hcu Hc). cbv zeta.
      destruct (run_compiler _) as [m|]; [right; eauto | left; auto].
    + left. rewrite (compile_cu_unbound _ _ _ _ _ _ _ _ _ _ st Hcu Hc). auto.
  - right. exists default_compiler_so. cbv zeta.
    rewrite (compile_host _ _ _ _ _ _ _ _ _ _ st Hcu). cbv zeta.
    destruct (run_compiler _) as [m|]; [right; eauto | left; auto].
Qed.

(** X14: a call of [_compile] never changes the registered source
    extensions and runs at most one compile step; that step carries
    the object, source, extension, [cc_args] and [pp_opts] it was
    given, and as post-arguments the module's GPU flag list for a
    [.cu] source and the module's host flag list otherwise: the
    [extra_postargs] passed by the caller are dropped, and the outcome
    is the same whatever they are. *)
Theorem compile_step_frame (obj src ext : string) (cc ep pp : list string)
        (st : BuildState) :
  src_extensions (compiler (snd (compile1 obj src ext cc ep pp st)))
    = src_extensions (compiler st)
  /\ (compile1 obj src ext cc ep pp st = (Raise (NameError "CUDA"), st)
      \/ exists so,
          spawned (snd (compile1 obj src ext cc ep pp st)) =
          spawned st ++ [mkCall so obj src ext cc
                           (if is_cu src then nvcc_flags g else compiler_flags g) pp])
  /\ (forall ep', compile1 obj src ext cc ep' pp st = compile1 obj src ext cc ep pp st).
Proof.
  split; [|split].
  - destruct (compile1_cases obj src ext cc ep pp st)
      as [(-> & _) | (so & [(_ & ->) | (m & _ & ->)])]; reflexivity.
  - destruct (compile1_cases obj src ext cc ep pp st)
      as [(-> & _) | (so & [(_ & ->) | (m & _ & ->)])];
      [left; reflexivity | right; exists so; reflexivity ..].
  - intros ep'. reflexivity.
Qed.

End DispatcherSteps.

(** X16: in a GPU build the step run for a [.cu] source uses the nvcc
    of the configuration that [locate_cuda] returned, a path it found
    to exist, with the module's GPU flag list, which never holds the
    trace define; the global CUDA is bound, so the switch does not
    raise a name error. *)
Theorem gpu_step_runs_located_nvcc
        (split_quoted : string -> list string) (run_compiler : Call -> option string)
        (np : string) (trace : bool) (w : World) (g : Globals) (out : list printed)
        (d : list string) (obj src ext : string) (cc ep pp : list string)
        (st : BuildState) :
  module_body np true trace w = Ok (g, out) ->
  is_cu src = true ->
  exists c call,
    locate_cuda w = Ok (c, out) /\ CUDA g = Some c /\
    path_exists w (nvcc c) = true /\
    spawned (snd (_compile split_quoted run_compiler g d obj src ext cc ep pp st))
      = spawned st ++ [call] /\
    call_compiler_so call = split_quoted (nvcc c) /\
    call_postargs call = nvcc_flags g /\
    ~ In trace_define (call_postargs call) /\
    fst (_compile split_quoted run_compiler g d obj src ext cc ep pp st)
      <> Raise (NameError "CUDA").
Proof.
  intros Hb Hcu.
  destruct (locate_cuda w) as [[c o]|e] eqn:El;
    [|rewrite (module_body_cuda_raise np trace w e El) in Hb; discriminate].
  destruct (module_body_cuda_ok np trace w c o El)
    as (g' & Hg & _ & Hnf & _ & _ & Hc & _).
  rewrite Hg in Hb. injection Hb as <- <-.
  destruct (locate_cuda_ok_exists w c o El) as [Hitems _].
  pose proof (proj1 (check_items_ok w (items c)) Hitems ("nvcc", nvcc c)) as Hn.
  exists c. eexists. split; [reflexivity |]. split; [exact Hc |].
  split; [apply Hn; cbn; tauto |].
  rewrite (compile_cu _ _ _ _ _ _ _ _ _ _ st c Hcu Hc). cbv zeta.
  assert (~ In trace_define (nvcc_flags g')) as Hnt.
  { rewrite Hnf. unfold trace_define. cbn [In]. intuition discriminate. }
  destruct (run_compiler _); cbn [fst snd with_so spawned];
    (split; [reflexivity |]); cbn [call_compiler_so call_postargs];
    repeat split; auto; discriminate.
Qed.

(** The kernel source of the GPU build on the pinned installation. *)
Lemma gpu_step_runs_located_nvcc_witness :
  exists c call,
    locate_cuda world_pinned = Ok (c, [OutDict "CUDA config: " (items c)]) /\
    call_compiler_so call = one_word (nvcc c) /\
    path_exists world_pinned (nvcc c) = true.
Proof.
  destruct (gpu_step_runs_located_nvcc one_word (fun _ => None) "numpy/include" true
              world_pinned
              (match module_body "numpy/include" true true world_pinned with
               | Ok (g, _) => g
               | Raise _ => sample_globals
               end)
              [OutDict "CUDA config: "
                 (items (make_cudaconfig cuda_10_2 "/usr/local/cuda-10.2/bin/nvcc"))]
              ["gcc"] "kernels.o" "../includes/kernels.cu" ".cu" [] [] []
              sample_state eq_refl eq_refl)
    as (c & call & Hl & _ & He & _ & Hso & _).
  exists c, call.
  assert (c = make_cudaconfig cuda_10_2 "/usr/local/cuda-10.2/bin/nvcc") as Hc.
  { vm_compute in Hl. injection Hl as <-. reflexivity. }
  subst c. auto.
Defined.

(** ** Which sources go to nvcc *)

Lemma app_nil_string (t : string) : "" +:+ t = t.
Proof. reflexivity. Qed.

Lemma app_cons_string (a : ascii) (s t : string) :
  String a s +:+ t = String a (s +:+ t).
Proof. reflexivity. Qed.

Ltac push_app := rewrite ?app_cons_string, ?app_nil_string.

Lemma string_length_app (s t : string) :
  String.length (s +:+ t) = (String.length s + String.length t)%nat.
Proof.
  induction s as [|a s IH]; push_app; cbn [String.length];
    [reflexivity | rewrite IH; reflexivity].
Qed.

Lemma string_app_assoc (s t u : string) : (s +:+ t) +:+ u = s +:+ (t +:+ u).
Proof.
  induction s as [|a s IH]; push_app; [reflexivity | rewrite IH; reflexivity].
Qed.

Lemma rfind_from_app (c : ascii) (s1 s2 : string) :
  forall i acc,
    PyStr.rfind_from c i (s1 +:+ s2) acc =
    PyStr.rfind_from c (i + Z.of_nat (String.length s1)) s2
                     (PyStr.rfind_from c i s1 acc).
Proof.
  induction s1 as [|a s1 IH]; intros i acc; push_app;
    cbn [String.length PyStr.rfind_from].
  - f_equal. lia.
  - rewrite IH. f_equal. lia.
Qed.

(** No occurrence of [c]: the scan keeps what it had. *)
Lemma rfind_from_absent (c : ascii) (s : string) :
  has_char c s = false -> forall i acc, PyStr.rfind_from c i s acc = acc.
Proof.
  induction s as [|a s IH]; cbn [has_char PyStr.rfind_from]; [reflexivity |].
  intros H i acc. apply orb_false_iff in H as [Ha Hs].
  rewrite Ha. apply IH, Hs.
Qed.

Lemma take_app_length (s t : string) : PyStr.take (String.length s) (s +:+ t) = s.
Proof.
  unfold PyStr.take.
  induction s as [|a s IH]; push_app; cbn [String.length substring].
  - destruct t; reflexivity.
  - rewrite IH. reflexivity.
Qed.

Lemma substring_all (t : string) : substring 0 (String.length t) t = t.
Proof. induction t as [|a t IH]; cbn [String.length substring]; [reflexivity | rewrite IH; reflexivity]. Qed.

Lemma drop_app_length (s t : string) : PyStr.drop (String.length s) (s +:+ t) = t.
Proof.
  unfold PyStr.drop. rewrite string_length_app.
  replace (String.length s + String.length t - String.length s)%nat
    with (String.length t) by lia.
  induction s as [|a s IH]; push_app; cbn [String.length substring].
  - apply substring_all.
  - exact IH.
Qed.

Lemma take_drop (n : nat) (p : string) : PyStr.take n p +:+ PyStr.drop n p = p.
Proof.
  unfold PyStr.take, PyStr.drop. revert n.
  induction p as [|a p IH]; intros n.
  - destruct n; reflexivity.
  - destruct n as [|n]; cbn [String.length substring Nat.sub]; push_app.
    + rewrite substring_all. reflexivity.
    + rewrite IH. reflexivity.
Qed.

Lemma get_app_length (d : string) (a : ascii) (r : string) :
  String.get (String.length d) (d +:+ String a r) = Some a.
Proof.
  induction d as [|x d IH]; push_app; cbn [String.length String.get];
    [reflexivity | exact IH].
Qed.

Lemma rfind_sep_dir_prefix (d : string) :
  dir_prefix d -> PyStr.rfind OsPath.sep d = (Z.of_nat (String.length d) - 1)%Z.
Proof.
  intros [-> | [d' ->]]; [reflexivity |].
  unfold PyStr.rfind. rewrite rfind_from_app, string_length_app.
  cbn [PyStr.rfind_from String.length]. unfold OsPath.sep. cbn [Ascii.eqb Bool.eqb].
  lia.
Qed.

Lemma has_char_app (c : ascii) (s t : string) :
  has_char c (s +:+ t) = has_char c s || has_char c t.
Proof.
  induction s as [|a s IH]; push_app; cbn [has_char]; [reflexivity |].
  rewrite IH. apply orb_assoc.
Qed.

Lemma rfind_dot_before_cu (s : string) :
  PyStr.rfind OsPath.extsep (s +:+ ".cu") = Z.of_nat (String.length s).
Proof.
  unfold PyStr.rfind. rewrite rfind_from_app. reflexivity.
Qed.

Lemma rfind_sep_before_name (d t : string) :
  dir_prefix d -> has_char OsPath.sep t = false ->
  PyStr.rfind OsPath.sep (d +:+ t) = (Z.of_nat (String.length d) - 1)%Z.
Proof.
  intros Hd Ht. unfold PyStr.rfind. rewrite rfind_from_app.
  rewrite (rfind_from_absent _ _ Ht).
  apply (rfind_sep_dir_prefix d Hd).
Qed.

(** X17: the switch sends a source to nvcc only if its name ends in
    ".cu" after a non-empty stem, and it does send every name made of
    a directory prefix, a file name that does not begin with a dot and
    the ending ".cu"; a file called just ".cu", in any directory, has
    no extension for [splitext] and is compiled as a host source. *)
Theorem is_cu_characterisation :
  (forall p, is_cu p = true -> exists s, s <> "" /\ p = s +:+ ".cu")
  /\ (forall d a b,
        dir_prefix d -> a <> "."%char ->
        has_char OsPath.sep (String a b) = false ->
        is_cu (d +:+ String a b +:+ ".cu") = true)
  /\ (forall d, dir_prefix d -> is_cu (d +:+ ".cu") = false).
Proof.
  split; [|split].
  - intros p. unfold is_cu, OsPath.splitext.
    destruct (_ <? _)%Z; [|cbn [snd]; discriminate].
    set (fi := Z.to_nat (PyStr.rfind OsPath.sep p + 1)).
    set (n := Z.to_nat (PyStr.rfind OsPath.extsep p)).
    destruct (OsPath.has_non_dot p fi (n - fi)) eqn:Hnd; [|cbn [snd]; discriminate].
    cbn [snd]. intros H. apply String.eqb_eq in H.
    exists (PyStr.take n p). split.
    + destruct n as [|n'];
        [replace (0 - fi)%nat with 0%nat in Hnd by lia; discriminate |].
      destruct p as [|x p']; [discriminate |].
      unfold PyStr.take. cbn [substring]. discriminate.
    + rewrite <- H. symmetry. apply take_drop.
  - intros d a b Hd Ha Hb.
    assert (has_char OsPath.sep (String a b +:+ ".cu") = false) as Hb'.
    { rewrite has_char_app, Hb. reflexivity. }
    unfold is_cu, OsPath.splitext.
    rewrite (rfind_sep_before_name d _ Hd Hb').
    rewrite <- string_app_assoc, rfind_dot_before_cu.
    rewrite string_length_app. cbn [String.length].
    replace (_ <? _)%Z with true by (symmetry; apply Z.ltb_lt; lia).
    replace (Z.to_nat (Z.of_nat (String.length d) - 1 + 1)) with (String.length d) by lia.
    rewrite Nat2Z.id.
    replace (String.length d + S (String.length b) - String.length d)%nat
      with (S (String.length b)) by lia.
    cbn [OsPath.has_non_dot].
    rewrite string_app_assoc, app_cons_string, get_app_length.
    replace (Ascii.eqb a OsPath.extsep) with false
      by (symmetry; apply Ascii.eqb_neq; exact Ha).
    rewrite <- app_cons_string, <- string_app_assoc.
    replace (String.length d + S (String.length b))%nat
      with (String.length (d +:+ String a b))
      by (rewrite string_length_app; reflexivity).
    cbn [snd]. rewrite drop_app_length. reflexivity.
  - intros d Hd.
    unfold is_cu, OsPath.splitext.
    rewrite (rfind_sep_before_name d ".cu" Hd eq_refl), rfind_dot_before_cu.
    replace (_ <? _)%Z with true by (symmetry; apply Z.ltb_lt; lia).
    replace (Z.to_nat (Z.of_nat (String.length d) - 1 + 1)) with (String.length d) by lia.
    rewrite Nat2Z.id, Nat.sub_diag. reflexivity.
Qed.

(** The kernel source of the repository. *)
Lemma is_cu_characterisation_witness :
  is_cu "../includes/kernels.cu" = true.
Proof.
  apply (proj1 (proj2 is_cu_characterisation) "../includes/" "k"%char "ernels").
  - right. exists "../includes". reflexivity.
  - discriminate.
  - reflexivity.
Defined.

(** ** Paths derived from CUDAHOME *)

Lemma endswith_char_cons (c a : ascii) (s : string) :
  s <> "" -> PyStr.endswith_char c (String a s) = PyStr.endswith_char c s.
Proof. destruct s; [congruence | reflexivity]. Qed.

Lemma endswith_char_app (c : ascii) (s t : string) :
  t <> "" -> PyStr.endswith_char c (s +:+ t) = PyStr.endswith_char c t.
Proof.
  intros Ht. induction s as [|a s IH]; push_app; [reflexivity |].
  rewrite endswith_char_cons; [exact IH |].
  destruct s; push_app; [exact Ht | discriminate].
Qed.

Lemma eqb_app_nonempty (s t : string) : s <> "" -> String.eqb (s +:+ t) "" = false.
Proof. destruct s; [congruence | reflexivity]. Qed.

Lemma join_step_plain (p b : string) :
  p <> "" -> PyStr.endswith_char OsPath.sep p = false ->
  PyStr.startswith "/" b = false ->
  OsPath.join_step p b = p +:+ "/" +:+ b.
Proof.
  intros Hp He Hb. unfold OsPath.join_step. rewrite Hb, He.
  destruct p; [congruence | reflexivity].
Qed.

Lemma join_step_after_slash (p b : string) :
  PyStr.endswith_char OsPath.sep p = true ->
  PyStr.startswith "/" b = false ->
  OsPath.join_step p b = p +:+ b.
Proof.
  intros He Hb. unfold OsPath.join_step. rewrite Hb, He, orb_true_r. reflexivity.
Qed.

(** X18: a CUDAHOME given with one trailing slash leads to the same
    nvcc, include and lib64 paths as the same value without it (no
    doubled slash is produced); the home entry is kept as given. *)
Theorem cudahome_trailing_slash (w : World) (h h0 : string) :
  isdir w cuda_10_2 = false -> isdir w cuda_default = false ->
  h <> "" -> PyStr.endswith_char OsPath.sep h = false ->
  h0 = h \/ h0 = h +:+ "/" ->
  environ w !! "CUDAHOME" = Some h0 ->
  choose_root w = Ok (h0, h +:+ "/bin/nvcc")
  /\ make_cudaconfig h0 (h +:+ "/bin/nvcc")
     = mkCuda h0 (h +:+ "/bin/nvcc") (h +:+ "/include") (h +:+ "/lib64").
Proof.
  intros H1 H2 Hne Hend Hh0 Henv.
  assert (forall x, PyStr.startswith "/" x = false ->
                    OsPath.join_step h0 x = h +:+ "/" +:+ x) as Hjoin.
  { intros x Hx. destruct Hh0 as [-> | ->].
    - apply join_step_plain; assumption.
    - rewrite join_step_after_slash; [apply string_app_assoc | | exact Hx].
      apply endswith_char_app. discriminate. }
  split.
  - unfold choose_root. rewrite H1, H2, Henv.
    unfold OsPath.pjoin. cbn [fold_left].
    rewrite (Hjoin "bin" eq_refl).
    rewrite join_step_plain.
    + rewrite string_app_assoc. reflexivity.
    + destruct h; [congruence | discriminate].
    + apply (endswith_char_app OsPath.sep h "/bin"). discriminate.
    + reflexivity.
  - unfold make_cudaconfig, OsPath.pjoin. cbn [fold_left].
    rewrite (Hjoin "include" eq_refl), (Hjoin "lib64" eq_refl). reflexivity.
Qed.

(** CUDAHOME=/opt/cuda/ *)
Lemma cudahome_trailing_slash_witness :
  choose_root (fs_world (<["CUDAHOME" := "/opt/cuda/"]> ∅) [] [])
  = Ok ("/opt/cuda/", "/opt/cuda/bin/nvcc").
Proof.
  apply (proj1 (cudahome_trailing_slash
                  (fs_world (<["CUDAHOME" := "/opt/cuda/"]> ∅) [] [])
                  "/opt/cuda" "/opt/cuda/"
                  eq_refl eq_refl ltac:(discriminate) eq_refl
                  (or_intror eq_refl) eq_refl)).
Defined.
